(** * L3GD20H gyro driver (package l3gd): shallow embedding and properties

    The driver talks to the sensor through three primitives of an I2C bus
    ([ReadByteFromReg], [WriteByteToReg], [ReadSliceFromReg]).  The bus is an
    external package, so it is kept abstract: a record of three functions
    over an arbitrary device state, each of which may fail.  The driver's
    methods are written in a small state monad that threads the device state
    and records every bus transaction in a log. *)

From Stdlib Require Import String ZArith List Bool Lia.
Import ListNotations.
Local Open Scope Z_scope.

(** ** Machine integers *)

Module GoInt.

(** Go [byte] values are the integers 0..255. *)
Definition is_byte (b : Z) : Prop := 0 <= b < 256.

(** [byte(x)] for an [int] x: truncation to the low eight bits. *)
Definition to_byte (x : Z) : Z := x mod 256.

(** [int8(b)] for a [byte] b: the same eight bits read as signed. *)
Definition to_int8 (b : Z) : Z :=
  if b mod 256 <? 128 then b mod 256 else b mod 256 - 256.

(** Wrap-around of a signed integer of [bits] bits. *)
Definition wrap (bits x : Z) : Z :=
  (x + 2 ^ (bits - 1)) mod 2 ^ bits - 2 ^ (bits - 1).

(** Width of Go's [int]: 64 on 64-bit targets (32 on 32-bit ones, where the
    driver computes the same values, see [shl_int8_exact_any_width]). *)
Definition int_bits : Z := 64.

(** Wrap-around of an [int] result. *)
Definition wrap_int (x : Z) : Z := wrap int_bits x.

(** [x << n] on [int]. *)
Definition shl_int (x n : Z) : Z := wrap_int (Z.shiftl x n).

(** [a &^ b] (bit clear). *)
Definition and_not (a b : Z) : Z := Z.ldiff a b.

End GoInt.
Import GoInt.

(** ** Registers (lines 27-31) *)

Definition DefaultAddress : Z := 0x6b.

Definition regCtrl1 : Z := 0x20.
Definition regCtrl4 : Z := 0x23.
Definition regLowOdr : Z := 0x39.

(** The register address passed by [Read]: [0x27|(1<<7)]. *)
Definition regOutBurst : Z := Z.lor 0x27 (Z.shiftl 1 7).

(** ** DataAvailabilityError (lines 36-50) *)

Record DataAvailabilityError : Type := {
  NewDataNotAvailable : bool;
  NewDataWasOverwritten : bool
}.

Definition msgNotAvailable : string :=
  "Warning: there was no new measurement since the previous read.".
Definition msgOverwritten : string :=
  "Warning: a new measurement was acquired before the previous was read.".
Definition msgUnknown : string :=
  "An unknown error has occured. Data may be stale.".

Definition Error (e : DataAvailabilityError) : string :=
  if NewDataNotAvailable e then msgNotAvailable
  else if NewDataWasOverwritten e then msgOverwritten
  else msgUnknown.

(** A Go [error] as the driver returns it: either the bus's own error, passed
    on, or a [DataAvailabilityError].  [None] is [nil]. *)
Inductive error (Err : Type) : Type :=
| BusError (e : Err)
| DataAvailability (d : DataAvailabilityError).
Arguments BusError {Err} e.
Arguments DataAvailability {Err} d.

(** ** Sample decoding (lines 116-118)

    [decode_axis hi lo] is the expression
    [(int(int8(hi)) << 8) | int(int8(lo))] that [Read] evaluates for each
    axis.  The conversion to [float64] is exact on the values it yields
    (they fit in sixteen bits), so a component is kept as the integer. *)
Definition decode_axis (hi lo : Z) : Z :=
  Z.lor (shl_int (to_int8 hi) 8) (to_int8 lo).

(** The vector type r3.Vector, components as integers (the field Z is
    spelled [Z_], [Z] being the type of integers here). *)
Record Vector : Type := { X : Z; Y : Z; Z_ : Z }.

Definition zero_vector : Vector := {| X := 0; Y := 0; Z_ := 0 |}.

Definition decode_vector (bytes : list Z) : Vector :=
  {| X := decode_axis (nth 2 bytes 0) (nth 1 bytes 0);
     Y := decode_axis (nth 4 bytes 0) (nth 3 bytes 0);
     Z_ := decode_axis (nth 6 bytes 0) (nth 5 bytes 0) |}.

(** ** Status byte (lines 119-123) *)
Definition status_error (b : Z) : option DataAvailabilityError :=
  if Z.land b 0xf0 >? 0 then
    Some {| NewDataNotAvailable := false; NewDataWasOverwritten := true |}
  else if Z.land b 0x0f =? 0 then
    Some {| NewDataNotAvailable := true; NewDataWasOverwritten := false |}
  else None.

(** ** Frequency table (lines 75-83) *)
Definition bitsLowodrDrForFrequency : list (Z * Z * Z) :=
  [ (12, 1, 0x0f);
    (25, 1, 0x1f);
    (50, 1, 0x2f);
    (100, 0, 0x0f);
    (200, 0, 0x1f);
    (400, 0, 0x2f);
    (800, 0, 0x3f) ].

(** Row [i] of the table; columns 0, 1, 2 of a row. *)
Definition row (i : nat) : Z * Z * Z := nth i bitsLowodrDrForFrequency (0, 0, 0).
Definition col0 (r : Z * Z * Z) : Z := fst (fst r).
Definition col1 (r : Z * Z * Z) : Z := snd (fst r).
Definition col2 (r : Z * Z * Z) : Z := snd r.

(** ** The I2C bus

    Package i2c is an external collaborator.  A bus is any implementation of
    the three primitives the driver calls, acting on a device state [St] and
    failing with errors of type [Err].  Each primitive returns Go's result
    tuple together with the next device state; [ReadSliceFromReg] also
    returns the caller's buffer as the call left it. *)
Record Bus (St Err : Type) : Type := {
  ReadByteFromReg : St -> Z -> Z -> (Z * option Err) * St;
  WriteByteToReg : St -> Z -> Z -> Z -> option Err * St;
  ReadSliceFromReg : St -> Z -> Z -> list Z -> (list Z * (Z * option Err)) * St
}.
Arguments ReadByteFromReg {St Err} _ _ _ _.
Arguments WriteByteToReg {St Err} _ _ _ _ _.
Arguments ReadSliceFromReg {St Err} _ _ _ _ _.

(** A bus transaction as the driver issued it. *)
Inductive transaction : Type :=
| TxReadByte (addr reg : Z)
| TxWriteByte (addr reg value : Z)
| TxReadSlice (addr reg : Z) (len : nat).

(** ** State monad over the device and the transaction log

    The log keeps, for each transaction, the error the bus returned for it
    ([None] for [nil]). *)
Section Monad.
Context {St Err : Type}.

Record World : Type := { dev : St; log : list (transaction * option Err) }.

Definition M (A : Type) : Type := World -> A * World.

Definition ret {A} (a : A) : M A := fun w => (a, w).

Definition bind {A B} (m : M A) (k : A -> M B) : M B :=
  fun w => let (a, w') := m w in k a w'.

(** One bus call: run it on the device, append it and its outcome to the
    log. *)
Definition call {A} (tx : transaction) (outcome : A -> option Err)
           (f : St -> A * St) : M A :=
  fun w => let (a, s') := f (dev w) in
           (a, {| dev := s'; log := log w ++ [(tx, outcome a)] |}).

End Monad.
Arguments World : clear implicits.
Arguments M : clear implicits.

Declare Scope bus_scope.
Delimit Scope bus_scope with bus.
Notation "x <- m ;; k" := (bind m (fun x => k))
  (at level 61, m at next level, right associativity) : bus_scope.
Notation "' p <- m ;; k" := (bind m (fun x => let p := x in k))
  (at level 61, p pattern, m at next level, right associativity) : bus_scope.
Local Open Scope bus_scope.

(** ** The driver (lines 11-25, 52-125) *)
Section Driver.
Context {St Err : Type}.

Record L3GD : Type := { bus : Bus St Err; address : Z }.

Definition NewL3GD (b : Bus St Err) (addr : Z) : L3GD :=
  {| bus := b; address := addr |}.

(** [l3g.bus.ReadByteFromReg(l3g.address, reg)] and its two siblings. *)
Definition readByteFromReg (l3g : L3GD) (reg : Z)
  : M St Err (Z * option Err) :=
  call (TxReadByte (address l3g) reg) snd
       (fun s => ReadByteFromReg (bus l3g) s (address l3g) reg).

Definition writeByteToReg (l3g : L3GD) (reg v : Z) : M St Err (option Err) :=
  call (TxWriteByte (address l3g) reg v) (fun e => e)
       (fun s => WriteByteToReg (bus l3g) s (address l3g) reg v).

Definition readSliceFromReg (l3g : L3GD) (reg : Z) (data : list Z)
  : M St Err (list Z * (Z * option Err)) :=
  call (TxReadSlice (address l3g) reg (length data)) (fun r => snd (snd r))
       (fun s => ReadSliceFromReg (bus l3g) s (address l3g) reg data).

(** [return l3g.bus.WriteByteToReg(...)]: the bus's result handed back as
    the method's [error]. *)
Definition as_error (e : option Err) : option (error Err) :=
  option_map BusError e.

Definition Sleep (l3g : L3GD) : M St Err (option (error Err)) :=
  '(bw, err) <- readByteFromReg l3g regCtrl1 ;;
  match err with
  | Some e => ret (Some (BusError e))
  | None =>
      err <- writeByteToReg l3g regCtrl1 (and_not bw (Z.shiftl 1 3)) ;;
      ret (as_error err)
  end.

Definition Wake (l3g : L3GD) : M St Err (option (error Err)) :=
  '(bw, err) <- readByteFromReg l3g regCtrl1 ;;
  match err with
  | Some e => ret (Some (BusError e))
  | None =>
      err <- writeByteToReg l3g regCtrl1 (Z.lor bw 0xf0) ;;
      ret (as_error err)
  end.

(** Body of the [if] inside the loop of [SetFrequency], at index [i]. *)
Definition SetFrequency_body (l3g : L3GD) (i : nat)
  : M St Err (option (error Err)) :=
  err <- writeByteToReg l3g regLowOdr (to_byte (col1 (row i))) ;;
  match err with
  | Some e => ret (Some (BusError e))
  | None =>
      err <- writeByteToReg l3g regCtrl1 (to_byte (col2 (row i))) ;;
      ret (as_error err)
  end.

(** The [for] loop of [SetFrequency] at index [i], with [n] iterations left
    ([n] is [len - i]); running off the end is the [return nil] after the
    loop. *)
Fixpoint SetFrequency_loop (l3g : L3GD) (hz : Z) (n i : nat)
  : M St Err (option (error Err)) :=
  match n with
  | O => ret None
  | S n' =>
      if (col0 (row i) >=? hz)
         || (i =? length bitsLowodrDrForFrequency - 1)%nat
      then SetFrequency_body l3g i
      else SetFrequency_loop l3g hz n' (S i)
  end.

Definition SetFrequency (l3g : L3GD) (hz : Z)
  : M St Err (option (error Err)) :=
  err <- writeByteToReg l3g regCtrl4 0x00 ;;
  match err with
  | Some e => ret (Some (BusError e))
  | None => SetFrequency_loop l3g hz (length bitsLowodrDrForFrequency) 0
  end.

Definition Read (l3g : L3GD) : M St Err (Vector * option (error Err)) :=
  let bytes := repeat 0 7 in
  '(bytes, (_, err)) <- readSliceFromReg l3g regOutBurst bytes ;;
  match err with
  | Some e => ret (zero_vector, Some (BusError e))
  | None =>
      ret (decode_vector bytes,
           option_map DataAvailability (status_error (nth 0 bytes 0)))
  end.

End Driver.
Arguments L3GD : clear implicits.

(** ** Reference notions the properties are stated against *)

(** Value of the sixteen-bit word with low byte [lo] and high byte [hi], read
    as two's complement. *)
Definition twos_complement16 (lo hi : Z) : Z :=
  let u := lo + 256 * hi in
  if u <? 32768 then u else u - 65536.

(** Outcome of a read, as a caller classifies the returned error. *)
Inductive DataAvailabilityStatus : Type :=
| Fresh
| NotYetAvailable
| Overwritten
| Unknown.

Definition status_of (e : option DataAvailabilityError) : DataAvailabilityStatus :=
  match e with
  | None => Fresh
  | Some d =>
      if NewDataNotAvailable d then NotYetAvailable
      else if NewDataWasOverwritten d then Overwritten
      else Unknown
  end.

(** The same classification applied to what [Read] returns; a bus error is
    not a data-availability outcome. *)
Definition read_status {Err} (e : option (error Err)) : option DataAvailabilityStatus :=
  match e with
  | None => Some Fresh
  | Some (DataAvailability d) => Some (status_of (Some d))
  | Some (BusError _) => None
  end.

(** Status of a status byte, read off its bits: an overrun flag (bits 4-7)
    set gives [Overwritten]; otherwise no data-ready flag (bits 0-3) set
    gives [NotYetAvailable]; otherwise [Fresh]. *)
Definition status_by_nibbles (b : Z) : DataAvailabilityStatus :=
  if existsb (Z.testbit b) [4; 5; 6; 7] then Overwritten
  else if existsb (Z.testbit b) [0; 1; 2; 3] then Fresh
  else NotYetAvailable.

(** [selects hz i]: row [i] is the first row whose rate is at least [hz], or
    the last row when no row reaches [hz]. *)
Definition selects (hz : Z) (i : nat) : Prop :=
  (i < length bitsLowodrDrForFrequency)%nat /\
  ((hz <= col0 (row i) /\ forall j, (j < i)%nat -> col0 (row j) < hz) \/
   (S i = length bitsLowodrDrForFrequency /\
    forall j, (j < length bitsLowodrDrForFrequency)%nat -> col0 (row j) < hz)).

(** A failed transaction ends the operation: in the part of the log that
    [m] adds, a transaction with an error is the last one, and its error is
    what [m] returns. *)
Definition short_circuits {St Err A} (m : M St Err A)
           (err_of : A -> option (error Err)) : Prop :=
  forall w, exists l,
    log (snd (m w)) = log w ++ l /\
    forall pre tx e post,
      l = pre ++ (tx, Some e) :: post ->
      post = [] /\ err_of (fst (m w)) = Some (BusError e).

(** ** A simulated device

    A register file behind the bus, used to run the driver on concrete
    inputs: a byte read returns the stored value, a write stores it, a slice
    read returns consecutive registers when bit 7 of the register address
    (auto-increment) is set.  [flaky] fails every transaction once its budget
    of successful transactions is used up. *)
Module Sim.

Inductive io_error : Type := ErrRemoteIO.

Definition regs : Type := Z -> Z -> Z.

Definition store (m : regs) (a r v : Z) : regs :=
  fun a' r' => if (a' =? a) && (r' =? r) then v else m a' r'.

Definition burst (m : regs) (a r : Z) (n : nat) : list Z :=
  map (fun i => m a (if Z.testbit r 7
                     then Z.land r 0x7f + Z.of_nat i
                     else Z.land r 0x7f))
      (seq 0 n).

Definition ideal : Bus regs io_error :=
  {| ReadByteFromReg := fun m a r => ((m a r, None), m);
     WriteByteToReg := fun m a r v => (None, store m a r v);
     ReadSliceFromReg := fun m a r data =>
       ((burst m a r (length data), (Z.of_nat (length data), None)), m) |}.

Definition flaky : Bus (nat * regs) io_error :=
  {| ReadByteFromReg := fun s a r =>
       match fst s with
       | O => ((0, Some ErrRemoteIO), s)
       | S k => ((snd s a r, None), (k, snd s))
       end;
     WriteByteToReg := fun s a r v =>
       match fst s with
       | O => (Some ErrRemoteIO, s)
       | S k => (None, (k, store (snd s) a r v))
       end;
     ReadSliceFromReg := fun s a r data =>
       match fst s with
       | O => ((data, (0, Some ErrRemoteIO)), s)
       | S k => ((burst (snd s) a r (length data),
                  (Z.of_nat (length data), None)), (k, snd s))
       end |}.

(** A device whose registers all hold [0] except the listed ones. *)
Definition blank : regs := fun _ _ => 0.

Fixpoint load (m : regs) (a r : Z) (bytes : list Z) : regs :=
  match bytes with
  | [] => m
  | b :: rest => load (store m a r b) a (r + 1) rest
  end.

Definition start {St} (s : St) : World St io_error := {| dev := s; log := [] |}.

End Sim.

(** ** The methods unfolded into their bus calls

    What a run of each method amounts to, written out call by call with the
    log it leaves; the run lemmas below prove each equal to the method. *)
Section Unfolded.
Context {St Err : Type}.
Variable l3g : L3GD St Err.
Let a := address l3g.

(** Read-modify-write of CTRL1 with the byte function [f]: the shape shared
    by [Sleep] and [Wake]. *)
Definition update_ctrl1 (f : Z -> Z) (w : World St Err)
  : option (error Err) * World St Err :=
  let '((bw, e1), s1) := ReadByteFromReg (bus l3g) (dev w) a regCtrl1 in
  match e1 with
  | Some e =>
      (Some (BusError e),
       {| dev := s1; log := log w ++ [(TxReadByte a regCtrl1, Some e)] |})
  | None =>
      let '(e2, s2) := WriteByteToReg (bus l3g) s1 a regCtrl1 (f bw) in
      (as_error e2,
       {| dev := s2;
          log := log w ++ [(TxReadByte a regCtrl1, None);
                           (TxWriteByte a regCtrl1 (f bw), e2)] |})
  end.

(** The three writes of [SetFrequency] when row [i] is the selected one. *)
Definition three_writes (i : nat) (w : World St Err)
  : option (error Err) * World St Err :=
  let '(e1, s1) := WriteByteToReg (bus l3g) (dev w) a regCtrl4 0x00 in
  match e1 with
  | Some e =>
      (Some (BusError e),
       {| dev := s1; log := log w ++ [(TxWriteByte a regCtrl4 0x00, Some e)] |})
  | None =>
      let '(e2, s2) := WriteByteToReg (bus l3g) s1 a regLowOdr (col1 (row i)) in
      match e2 with
      | Some e =>
          (Some (BusError e),
           {| dev := s2;
              log := log w ++ [(TxWriteByte a regCtrl4 0x00, None);
                               (TxWriteByte a regLowOdr (col1 (row i)), Some e)] |})
      | None =>
          let '(e3, s3) := WriteByteToReg (bus l3g) s2 a regCtrl1 (col2 (row i)) in
          (as_error e3,
           {| dev := s3;
              log := log w ++ [(TxWriteByte a regCtrl4 0x00, None);
                               (TxWriteByte a regLowOdr (col1 (row i)), None);
                               (TxWriteByte a regCtrl1 (col2 (row i)), e3)] |})
      end
  end.

End Unfolded.

(** [Sleep] and then [Wake], each returning its error. *)
Definition Sleep_then_Wake {St Err} (l3g : L3GD St Err)
  : M St Err (option (error Err) * option (error Err)) :=
  e1 <- Sleep l3g ;; e2 <- Wake l3g ;; ret (e1, e2).

(** ** Enumeration of the bytes, for checks by cases *)

Definition all_bytes : list Z := map Z.of_nat (seq 0 256).

Definition status_eqb (x y : DataAvailabilityStatus) : bool :=
  match x, y with
  | Fresh, Fresh | NotYetAvailable, NotYetAvailable
  | Overwritten, Overwritten | Unknown, Unknown => true
  | _, _ => false
  end.

(** ** Further notions

    The control flow of the loop of [SetFrequency] alone (lines 91-92): the
    index at which the [if] fires, [None] if the loop runs off the end. *)
Fixpoint selected_index_from (hz : Z) (n i : nat) : option nat :=
  match n with
  | O => None
  | S n' =>
      if (col0 (row i) >=? hz)
         || (i =? length bitsLowodrDrForFrequency - 1)%nat
      then Some i
      else selected_index_from hz n' (S i)
  end.

Definition selected_index (hz : Z) : option nat :=
  selected_index_from hz (length bitsLowodrDrForFrequency) 0.




(** An assumption on the bus, for statements about several methods in a
    row: CTRL1 of device [a] behaves as a register.  [holds s v] says that
    CTRL1 contains [v] in device state [s]; a read of CTRL1 then returns [v]
    and changes nothing, a write of [v] to CTRL1 succeeds and leaves [v]
    there, and writes to the other registers succeed. *)
Record ctrl1_register {St Err} (b : Bus St Err) (a : Z)
       (holds : St -> Z -> Prop) : Prop := {
  ctrl1_read : forall s v,
    holds s v ->
    exists s', ReadByteFromReg b s a regCtrl1 = ((v, None), s') /\ holds s' v;
  ctrl1_write : forall s v,
    exists s', WriteByteToReg b s a regCtrl1 v = (None, s') /\ holds s' v;
  other_write : forall s r v,
    r <> regCtrl1 -> exists s', WriteByteToReg b s a r v = (None, s')
}.

(** * Properties *)

(** ** Bytes *)

Lemma all_bytes_complete (b : Z) : is_byte b -> In b all_bytes.
Proof.
  intros [Hlo Hhi]. unfold all_bytes.
  rewrite <- (Z2Nat.id b Hlo). apply in_map, in_seq. lia.
Qed.

(** A check that passes on each of the 256 bytes holds of every byte. *)
Lemma byte_cases (P : Z -> bool) :
  forallb P all_bytes = true -> forall b, is_byte b -> P b = true.
Proof.
  intros Hall b Hb. rewrite forallb_forall in Hall.
  apply Hall, all_bytes_complete, Hb.
Qed.

Lemma to_byte_is_byte (x : Z) : is_byte (to_byte x).
Proof. unfold is_byte, to_byte. apply Z.mod_pos_bound. lia. Qed.

Lemma low_bits_to_byte (b i : Z) :
  0 <= i < 8 -> Z.testbit (to_byte b) i = Z.testbit b i.
Proof.
  intros Hi. unfold to_byte. change 256 with (2 ^ 8).
  apply Z.mod_pow2_bits_low. lia.
Qed.

Lemma byte_high_bits (b i : Z) : is_byte b -> 8 <= i -> Z.testbit b i = false.
Proof.
  intros Hb Hi. destruct (Z.eq_dec b 0) as [-> | Hnz]; [apply Z.bits_0|].
  unfold is_byte in Hb. apply Z.bits_above_log2; [lia|].
  assert (Z.log2 b < 8); [|lia].
  apply Z.log2_lt_pow2; lia.
Qed.

Lemma land_to_byte (b m : Z) :
  is_byte m -> Z.land b m = Z.land (to_byte b) m.
Proof.
  intros Hm. apply Z.bits_inj'. intros i Hi.
  rewrite !Z.land_spec.
  destruct (Z_lt_ge_dec i 8) as [Hlt | Hge].
  - rewrite low_bits_to_byte by lia. reflexivity.
  - rewrite (byte_high_bits m i) by (assumption || lia).
    rewrite !andb_false_r. reflexivity.
Qed.

(** Bits 8 and up of a negative number no smaller than -128 are all set. *)
Lemma int8_negative_high_bits (x i : Z) :
  -128 <= x < 0 -> 7 <= i -> Z.testbit x i = true.
Proof.
  intros Hx Hi. apply Z.bits_above_log2_neg; [lia|].
  destruct (Z.eq_dec (Z.pred (- x)) 0) as [-> | Hnz]; [simpl; lia|].
  assert (Z.log2 (Z.pred (- x)) < 7); [|lia].
  apply Z.log2_lt_pow2; lia.
Qed.

Lemma shifted_low_bits (h i : Z) : 0 <= i < 8 -> Z.testbit (h * 256) i = false.
Proof. intros Hi. change 256 with (2 ^ 8). apply Z.mul_pow2_bits_low. lia. Qed.

(** ** Sample decoding *)

Lemma to_int8_range (b : Z) : -128 <= to_int8 b < 128.
Proof.
  unfold to_int8. pose proof (Z.mod_pos_bound b 256 eq_refl).
  destruct (b mod 256 <? 128) eqn:E;
    [apply Z.ltb_lt in E | apply Z.ltb_ge in E]; lia.
Qed.

(** The shift in [decode_axis] never wraps, at any width from 17 bits up. *)
Lemma shl_int8_exact_any_width (bits b : Z) :
  17 <= bits -> wrap bits (Z.shiftl (to_int8 b) 8) = to_int8 b * 256.
Proof.
  intros Hbits. unfold wrap. rewrite Z.shiftl_mul_pow2 by lia.
  change (2 ^ 8) with 256. pose proof (to_int8_range b) as Hr.
  assert (2 ^ 16 <= 2 ^ (bits - 1)) as Hhalf
      by (apply Z.pow_le_mono_r; lia).
  change (2 ^ 16) with 65536 in Hhalf.
  assert (2 ^ bits = 2 * 2 ^ (bits - 1)) as Hfull.
  { replace bits with (Z.succ (bits - 1)) at 1 by lia.
    apply Z.pow_succ_r. lia. }
  rewrite Hfull, Z.mod_small by lia. lia.
Qed.

Lemma shl_int8_exact (b : Z) : shl_int (to_int8 b) 8 = to_int8 b * 256.
Proof.
  unfold shl_int, wrap_int, int_bits.
  apply shl_int8_exact_any_width. lia.
Qed.

Lemma to_int8_low (b : Z) : 0 <= b < 128 -> to_int8 b = b.
Proof.
  intros Hb. unfold to_int8. rewrite Z.mod_small by lia.
  destruct (b <? 128) eqn:E; [reflexivity | apply Z.ltb_ge in E; lia].
Qed.

Lemma to_int8_high (b : Z) : 128 <= b < 256 -> to_int8 b = b - 256.
Proof.
  intros Hb. unfold to_int8. rewrite Z.mod_small by lia.
  destruct (b <? 128) eqn:E; [apply Z.ltb_lt in E; lia | reflexivity].
Qed.

(** When the low byte has its top bit clear, the decoded value is the
    two's-complement value of the word. *)
Lemma decode_axis_low_byte_positive (hi lo : Z) :
  is_byte hi -> 0 <= lo < 128 ->
  decode_axis hi lo = twos_complement16 lo hi.
Proof.
  intros Hhi Hlo. unfold decode_axis.
  rewrite shl_int8_exact, (to_int8_low lo Hlo).
  assert (Z.land (to_int8 hi * 256) lo = 0) as Hdisj.
  { apply Z.bits_inj'. intros i Hi. rewrite Z.land_spec, Z.bits_0.
    destruct (Z_lt_ge_dec i 8).
    - rewrite shifted_low_bits by lia. reflexivity.
    - rewrite (byte_high_bits lo i) by (unfold is_byte; lia).
      apply andb_false_r. }
  pose proof (Z.add_lor_land (to_int8 hi * 256) lo) as Hadd.
  rewrite Hdisj in Hadd. unfold twos_complement16, is_byte in *.
  destruct (Z_lt_ge_dec hi 128).
  - rewrite to_int8_low in * by lia.
    destruct (lo + 256 * hi <? 32768) eqn:E;
      [apply Z.ltb_lt in E | apply Z.ltb_ge in E]; lia.
  - rewrite to_int8_high in * by lia.
    destruct (lo + 256 * hi <? 32768) eqn:E;
      [apply Z.ltb_lt in E | apply Z.ltb_ge in E]; lia.
Qed.

(** When the low byte has its top bit set, its sign extension overwrites the
    high byte: the decoded value is [lo - 256], whatever [hi] is. *)
Lemma decode_axis_low_byte_negative (hi lo : Z) :
  128 <= lo < 256 ->
  decode_axis hi lo = lo - 256.
Proof.
  intros Hlo. unfold decode_axis.
  rewrite shl_int8_exact, (to_int8_high lo Hlo).
  apply Z.bits_inj'. intros i Hi. rewrite Z.lor_spec.
  destruct (Z_lt_ge_dec i 8).
  - rewrite shifted_low_bits by lia. reflexivity.
  - rewrite (int8_negative_high_bits (lo - 256) i) by lia.
    apply orb_true_r.
Qed.

(** So the decoded value differs from the two's-complement value exactly
    when the low byte has its top bit set and the high byte is not 0xFF. *)
Lemma decode_axis_correct_iff (hi lo : Z) :
  is_byte hi -> is_byte lo ->
  (decode_axis hi lo = twos_complement16 lo hi <-> lo < 128 \/ hi = 255).
Proof.
  intros Hhi Hlo. unfold is_byte in *.
  destruct (Z_lt_ge_dec lo 128).
  - rewrite decode_axis_low_byte_positive by (unfold is_byte; lia). intuition lia.
  - rewrite decode_axis_low_byte_negative by lia. unfold twos_complement16.
    destruct (lo + 256 * hi <? 32768) eqn:E;
      [apply Z.ltb_lt in E | apply Z.ltb_ge in E]; split; lia.
Qed.

(** C1. One of the four values the claim lists is not what [Read] computes:
    for the word 0x7FFF (low byte 0xFF, high byte 0x7F) the decoded component
    is -1, while the two's-complement value of that word is 32767; [Read] run
    on a device whose X registers hold 0xFF, 0x7F returns X = -1.  The other
    three values the claim lists are decoded as claimed. *)
Theorem decode_axis_7fff_is_minus_one :
  decode_axis 0x7f 0xff = -1 /\
  twos_complement16 0xff 0x7f = 32767 /\
  X (fst (fst (Read (NewL3GD Sim.ideal DefaultAddress)
                    (Sim.start (Sim.load Sim.blank DefaultAddress 0x27
                                         [0x0f; 0xff; 0x7f; 0; 0; 0; 0])))))
    = -1 /\
  decode_axis 0xff 0xff = -1 /\
  decode_axis 0x80 0x00 = -32768 /\
  decode_axis 0x00 0x01 = 1.
Proof. repeat split; vm_compute; reflexivity. Qed.

(** ** Running the driver *)

Ltac run_bus :=
  unfold Sleep, Wake, SetFrequency, SetFrequency_body, Read,
    readByteFromReg, writeByteToReg, readSliceFromReg, bind, call, ret,
    as_error;
  cbn [dev log fst snd bus address length repeat].

(** [Read] in one step: the single bus call and what is made of its result. *)
Lemma Read_run {St Err} (l3g : L3GD St Err) (w : World St Err) data n err s' :
  ReadSliceFromReg (bus l3g) (dev w) (address l3g) regOutBurst (repeat 0 7)
    = ((data, (n, err)), s') ->
  Read l3g w =
    (match err with
     | Some e => (zero_vector, Some (BusError e))
     | None => (decode_vector data,
                option_map DataAvailability (status_error (nth 0 data 0)))
     end,
     {| dev := s';
        log := log w ++ [(TxReadSlice (address l3g) regOutBurst 7, err)] |}).
Proof.
  intros Hbus. run_bus. cbn [repeat] in Hbus. rewrite Hbus.
  destruct err; reflexivity.
Qed.

(** ** Status byte *)

Lemma status_error_to_byte (b : Z) : status_error b = status_error (to_byte b).
Proof.
  unfold status_error.
  rewrite (land_to_byte b 0xf0), (land_to_byte b 0x0f) by (unfold is_byte; lia).
  reflexivity.
Qed.

Lemma status_by_nibbles_to_byte (b : Z) :
  status_by_nibbles b = status_by_nibbles (to_byte b).
Proof.
  unfold status_by_nibbles. cbn [existsb].
  rewrite !low_bits_to_byte by lia. reflexivity.
Qed.

Lemma status_eqb_eq (x y : DataAvailabilityStatus) : status_eqb x y = true -> x = y.
Proof. destruct x, y; simpl; congruence. Qed.

(** The two comparisons of [Read] decide the status by the nibbles of the
    status byte. *)
Lemma status_error_by_nibbles (b : Z) :
  status_of (status_error b) = status_by_nibbles b.
Proof.
  rewrite status_error_to_byte, status_by_nibbles_to_byte.
  apply status_eqb_eq.
  apply (byte_cases
           (fun x => status_eqb (status_of (status_error x)) (status_by_nibbles x))).
  - vm_compute. reflexivity.
  - apply to_byte_is_byte.
Qed.

(** C2, the claim's examples fail: on the status byte 0x00 the outcome is not
    Fresh, both for the comparisons alone and for [Read] run on a device
    whose status register holds 0x00. *)
Lemma status_byte_00_is_not_fresh :
  status_of (status_error 0x00) <> Fresh /\
  read_status (snd (fst (Read (NewL3GD Sim.ideal DefaultAddress)
                              (Sim.start Sim.blank)))) <> Some Fresh.
Proof. split; vm_compute; discriminate. Qed.

(** C2, amended.  When the burst read succeeds with status byte [b] in byte
    0, the outcome [Read] reports is: Overwritten if a bit of the high nibble
    of [b] is set; otherwise NotYetAvailable if no bit of the low nibble is
    set; otherwise Fresh.  So 0x00 gives NotYetAvailable, 0x0F gives Fresh,
    0xF0 and 0xFF give Overwritten. *)
Theorem Read_status_by_nibbles {St Err} (l3g : L3GD St Err) (w : World St Err)
        data n s' :
  ReadSliceFromReg (bus l3g) (dev w) (address l3g) regOutBurst (repeat 0 7)
    = ((data, (n, None)), s') ->
  read_status (snd (fst (Read l3g w))) = Some (status_by_nibbles (nth 0 data 0)) /\
  status_of (status_error 0x00) = NotYetAvailable /\
  status_of (status_error 0x0f) = Fresh /\
  status_of (status_error 0xf0) = Overwritten /\
  status_of (status_error 0xff) = Overwritten.
Proof.
  intros Hbus. split; [|repeat split; vm_compute; reflexivity].
  rewrite (Read_run l3g w _ _ _ _ Hbus). cbn [fst snd].
  rewrite <- status_error_by_nibbles.
  destruct (status_error (nth 0 data 0)); reflexivity.
Qed.

Lemma Read_status_by_nibbles_witness :
  read_status (snd (fst (Read (NewL3GD Sim.ideal DefaultAddress)
       (Sim.start (Sim.load Sim.blank DefaultAddress 0x27 [0x0f; 1; 0; 2; 0; 3; 0])))))
  = Some Fresh.
Proof.
  apply (Read_status_by_nibbles
           (NewL3GD Sim.ideal DefaultAddress)
           (Sim.start (Sim.load Sim.blank DefaultAddress 0x27 [0x0f; 1; 0; 2; 0; 3; 0]))
           [0x0f; 1; 0; 2; 0; 3; 0] 7 
           (Sim.load Sim.blank DefaultAddress 0x27 [0x0f; 1; 0; 2; 0; 3; 0])).
  reflexivity.
Defined.

(** ** Frequency selection *)

Lemma table_length : length bitsLowodrDrForFrequency = 7%nat.
Proof. reflexivity. Qed.

(** The rates of the table increase strictly. *)
Lemma table_ascending (j k : nat) :
  (j < k < length bitsLowodrDrForFrequency)%nat -> col0 (row j) < col0 (row k).
Proof.
  rewrite table_length. intros H.
  do 7 (destruct j as [|j]; [do 7 (destruct k as [|k]; [vm_compute; reflexivity || lia|]); lia|]).
  lia.
Qed.

(** The table's second and third columns are bytes as they stand. *)
Lemma table_bytes (i : nat) :
  to_byte (col1 (row i)) = col1 (row i) /\ to_byte (col2 (row i)) = col2 (row i).
Proof.
  do 7 (destruct i as [|i]; [split; reflexivity|]).
  unfold row. rewrite nth_overflow by (rewrite table_length; lia).
  split; reflexivity.
Qed.

Lemma selects_unique (hz : Z) (i j : nat) : selects hz i -> selects hz j -> i = j.
Proof.
  intros [Hi [[Hge Hbelow] | [Hlast Hnone]]] [Hj [[Hge' Hbelow'] | [Hlast' Hnone']]].
  - destruct (Nat.lt_trichotomy i j) as [Hlt | [Heq | Hgt]]; [|exact Heq|].
    + specialize (Hbelow' i Hlt). lia.
    + specialize (Hbelow j Hgt). lia.
  - specialize (Hnone' i Hi). lia.
  - specialize (Hnone j Hj). lia.
  - lia.
Qed.

(** The loop, entered at index [i] with every earlier row below [hz] and at
    least one iteration left, runs the body exactly once, at the selected
    row. *)
Lemma SetFrequency_loop_selects {St Err} (l3g : L3GD St Err) (hz : Z) :
  forall n i,
    (n + i = length bitsLowodrDrForFrequency)%nat -> (0 < n)%nat ->
    (forall j, (j < i)%nat -> col0 (row j) < hz) ->
    exists k, selects hz k /\
              SetFrequency_loop l3g hz n i = SetFrequency_body l3g k.
Proof.
  induction n as [|n IH]; intros i Hsum Hpos Hbelow; [lia|].
  cbn [SetFrequency_loop].
  destruct (col0 (row i) >=? hz) eqn:Hge; cbn [orb].
  - exists i. split; [|reflexivity].
    split; [lia|]. left. split; [|exact Hbelow].
    rewrite Z.geb_leb in Hge. apply Z.leb_le, Hge.
  - rewrite Z.geb_leb in Hge. apply Z.leb_gt in Hge.
    destruct (i =? length bitsLowodrDrForFrequency - 1)%nat eqn:Hlast.
    + apply Nat.eqb_eq in Hlast. exists i. split; [|reflexivity].
      split; [lia|]. right. split; [lia|].
      intros j Hj. destruct (Nat.eq_dec j i) as [-> | Hne]; [exact Hge|].
      apply Hbelow. lia.
    + apply Nat.eqb_neq in Hlast.
      apply IH; [lia | lia |].
      intros j Hj. destruct (Nat.eq_dec j i) as [-> | Hne]; [exact Hge|].
      apply Hbelow. lia.
Qed.

Lemma SetFrequency_loop_from_start {St Err} (l3g : L3GD St Err) (hz : Z) :
  exists k, selects hz k /\
            SetFrequency_loop l3g hz (length bitsLowodrDrForFrequency) 0
            = SetFrequency_body l3g k.
Proof.
  apply SetFrequency_loop_selects; rewrite ?table_length; try lia.
Qed.

(** C3. For every [hz] the loop of [SetFrequency] selects exactly one row of
    the table (12,1,0x0F) ... (800,0,0x3F), whose rates are in ascending
    order: the first row whose rate is at least [hz], or the last row (800)
    when [hz] is above every rate.  The loop always runs its body at that row
    and never falls through. *)
Theorem SetFrequency_selects_one_entry (hz : Z) :
  bitsLowodrDrForFrequency =
    [(12, 1, 0x0f); (25, 1, 0x1f); (50, 1, 0x2f); (100, 0, 0x0f);
     (200, 0, 0x1f); (400, 0, 0x2f); (800, 0, 0x3f)] /\
  (forall j k, (j < k < 7)%nat -> col0 (row j) < col0 (row k)) /\
  exists i,
    selects hz i /\
    (forall j, selects hz j -> j = i) /\
    (800 < hz -> row i = (800, 0, 0x3f)) /\
    forall St Err (l3g : L3GD St Err),
      SetFrequency_loop l3g hz (length bitsLowodrDrForFrequency) 0
      = SetFrequency_body l3g i.
Proof.
  split; [reflexivity|]. split; [exact table_ascending|].
  destruct (SetFrequency_loop_from_start (NewL3GD Sim.ideal DefaultAddress) hz)
    as [i [Hsel _]].
  exists i. split; [exact Hsel|]. split; [|split].
  - intros j Hj. apply (selects_unique hz j i Hj Hsel).
  - intros Hbig. destruct Hsel as [Hi [[Hge _] | [Hlast _]]].
    + rewrite table_length in Hi.
      do 7 (destruct i as [|i];
            [first [reflexivity
                   | unfold row, col0, bitsLowodrDrForFrequency in Hge;
                     cbn [nth fst snd] in Hge; lia]|]).
      lia.
    + rewrite table_length in Hlast. injection Hlast as ->. reflexivity.
  - intros St Err l3g.
    destruct (SetFrequency_loop_from_start l3g hz) as [k [Hk Hloop]].
    rewrite (selects_unique hz i k Hsel Hk). exact Hloop.
Qed.

(** ** The methods, one bus call at a time *)

Section Runs.
Context {St Err : Type}.
Variable l3g : L3GD St Err.

Lemma Sleep_run (w : World St Err) :
  Sleep l3g w = update_ctrl1 l3g (fun bw => and_not bw (Z.shiftl 1 3)) w.
Proof.
  unfold update_ctrl1. run_bus.
  destruct (ReadByteFromReg _ _ _ _) as [[bw [e|]] s1]; [reflexivity|].
  cbn [dev log]. destruct (WriteByteToReg _ _ _ _ _) as [e2 s2].
  rewrite <- app_assoc. reflexivity.
Qed.

Lemma Wake_run (w : World St Err) :
  Wake l3g w = update_ctrl1 l3g (fun bw => Z.lor bw 0xf0) w.
Proof.
  unfold update_ctrl1. run_bus.
  destruct (ReadByteFromReg _ _ _ _) as [[bw [e|]] s1]; [reflexivity|].
  cbn [dev log]. destruct (WriteByteToReg _ _ _ _ _) as [e2 s2].
  rewrite <- app_assoc. reflexivity.
Qed.

Lemma SetFrequency_run (hz : Z) (i : nat) (w : World St Err) :
  selects hz i -> SetFrequency l3g hz w = three_writes l3g i w.
Proof.
  intros Hsel.
  destruct (SetFrequency_loop_from_start l3g hz) as [k [Hk Hloop]].
  rewrite (selects_unique hz i k Hsel Hk).
  unfold SetFrequency, three_writes, bind. rewrite Hloop. run_bus.
  destruct (table_bytes k) as [-> ->].
  destruct (WriteByteToReg _ _ _ _ _) as [[e|] s1]; [reflexivity|].
  cbn [dev log]. destruct (WriteByteToReg _ _ _ _ _) as [[e|] s2].
  - rewrite <- app_assoc. reflexivity.
  - cbn [dev log]. destruct (WriteByteToReg _ _ _ _ _) as [e3 s3].
    rewrite <- !app_assoc. reflexivity.
Qed.

End Runs.

Lemma app_cons_inv {A} (x y : A) (l pre post : list A) :
  x :: l = pre ++ y :: post ->
  (pre = [] /\ x = y /\ l = post) \/
  (exists pre', pre = x :: pre' /\ l = pre' ++ y :: post).
Proof.
  destruct pre as [|p pre']; cbn [app]; intros H; injection H as Hx Hl.
  - left. auto.
  - right. exists pre'. subst. auto.
Qed.

Lemma nil_app_cons {A} (y : A) (pre post : list A) : [] = pre ++ y :: post -> False.
Proof. destruct pre; discriminate. Qed.

(** Splits [l = pre ++ (tx, Some e) :: post], for an explicit [l], into the
    positions the failed transaction can have. *)
Ltac log_cases H :=
  first
    [ apply nil_app_cons in H; contradiction
    | apply app_cons_inv in H;
      destruct H as [[? [H ?]] | [? [? H]]];
      [ injection H as ? ?; subst; try discriminate
      | log_cases H ] ].

Lemma update_ctrl1_short_circuits {St Err} (l3g : L3GD St Err) (f : Z -> Z)
      (m : M St Err (option (error Err))) :
  (forall w, m w = update_ctrl1 l3g f w) -> short_circuits m (fun r => r).
Proof.
  intros Hrun w. rewrite Hrun. unfold update_ctrl1.
  destruct (ReadByteFromReg _ _ _ _) as [[bw [e1|]] s1].
  - eexists. split; [reflexivity|]. intros pre tx e post H.
    log_cases H. split; reflexivity.
  - destruct (WriteByteToReg _ _ _ _ _) as [[e2|] s2];
      (eexists; split; [reflexivity|]); intros pre tx e post H;
      log_cases H. split; reflexivity.
Qed.

Lemma three_writes_short_circuits {St Err} (l3g : L3GD St Err) (i : nat) :
  short_circuits (three_writes l3g i) (fun r => r).
Proof.
  intros w. unfold three_writes.
  destruct (WriteByteToReg _ _ _ _ _) as [[e1|] s1].
  - eexists. split; [reflexivity|]. intros pre tx e post H.
    log_cases H. split; reflexivity.
  - destruct (WriteByteToReg _ _ _ _ _) as [[e2|] s2].
    + eexists. split; [reflexivity|]. intros pre tx e post H.
      log_cases H. split; reflexivity.
    + destruct (WriteByteToReg _ _ _ _ _) as [[e3|] s3];
        (eexists; split; [reflexivity|]); intros pre tx e post H;
        log_cases H. split; reflexivity.
Qed.

Lemma Read_short_circuits {St Err} (l3g : L3GD St Err) :
  short_circuits (Read l3g) snd.
Proof.
  intros w.
  destruct (ReadSliceFromReg (bus l3g) (dev w) (address l3g) regOutBurst
                             (repeat 0 7)) as [[data [n err]] s'] eqn:Hbus.
  rewrite (Read_run l3g w _ _ _ _ Hbus). cbn [fst snd log].
  eexists. split; [reflexivity|]. intros pre tx e post H.
  destruct err; log_cases H. split; reflexivity.
Qed.

(** ** SetFrequency: the writes *)

Lemma selects_100 : selects 100 3.
Proof.
  split; [rewrite table_length; lia|]. left. split; [vm_compute; discriminate|].
  intros j Hj. do 3 (destruct j as [|j]; [reflexivity|]). lia.
Qed.

Lemma selects_12 : selects 12 0.
Proof.
  split; [rewrite table_length; lia|]. left. split; [vm_compute; discriminate|].
  intros j Hj. lia.
Qed.

(** C4. A [SetFrequency hz] that returns nil has issued exactly three
    writes on the bus, in this order and each of them successful: 0x00 to
    CTRL4 (0x23), then the selected row's lowOdrBit to LOW_ODR (0x39), then
    the selected row's ctrl1Bits to CTRL1 (0x20).  The device is left in the
    state the third write produced, and the log holds these three writes and
    nothing else.  For 100 Hz the bytes are 0x00, 0x00, 0x0F; for 12 Hz they
    are 0x00, 0x01, 0x0F. *)
Theorem SetFrequency_three_writes_in_order {St Err} (l3g : L3GD St Err)
        (hz : Z) (w w' : World St Err) :
  SetFrequency l3g hz w = (None, w') ->
  exists i s1 s2 s3,
    selects hz i /\
    WriteByteToReg (bus l3g) (dev w) (address l3g) 0x23 0x00 = (None, s1) /\
    WriteByteToReg (bus l3g) s1 (address l3g) 0x39 (col1 (row i)) = (None, s2) /\
    WriteByteToReg (bus l3g) s2 (address l3g) 0x20 (col2 (row i)) = (None, s3) /\
    w' = {| dev := s3;
            log := log w ++
              [(TxWriteByte (address l3g) 0x23 0x00, None);
               (TxWriteByte (address l3g) 0x39 (col1 (row i)), None);
               (TxWriteByte (address l3g) 0x20 (col2 (row i)), None)] |} /\
    (hz = 100 -> col1 (row i) = 0x00 /\ col2 (row i) = 0x0f) /\
    (hz = 12 -> col1 (row i) = 0x01 /\ col2 (row i) = 0x0f).
Proof.
  intros Hok.
  destruct (SetFrequency_loop_from_start l3g hz) as [i [Hsel _]].
  rewrite (SetFrequency_run l3g hz i w Hsel) in Hok. unfold three_writes in Hok.
  destruct (WriteByteToReg (bus l3g) (dev w) (address l3g) regCtrl4 0)
    as [[e1|] s1] eqn:H1; [discriminate|].
  destruct (WriteByteToReg (bus l3g) s1 (address l3g) regLowOdr (col1 (row i)))
    as [[e2|] s2] eqn:H2; [discriminate|].
  destruct (WriteByteToReg (bus l3g) s2 (address l3g) regCtrl1 (col2 (row i)))
    as [[e3|] s3] eqn:H3; [discriminate|].
  injection Hok as <-.
  exists i, s1, s2, s3.
  split; [exact Hsel|]. split; [exact H1|]. split; [exact H2|].
  split; [exact H3|]. split; [reflexivity|]. split.
  - intros ->. rewrite (selects_unique 100 i 3 Hsel selects_100).
    split; reflexivity.
  - intros ->. rewrite (selects_unique 12 i 0 Hsel selects_12).
    split; reflexivity.
Qed.

Lemma SetFrequency_three_writes_in_order_witness :
  exists i s1 s2 s3,
    selects 100 i /\
    WriteByteToReg Sim.ideal Sim.blank 0x6b 0x23 0x00 = (None, s1) /\
    WriteByteToReg Sim.ideal s1 0x6b 0x39 (col1 (row i)) = (None, s2) /\
    WriteByteToReg Sim.ideal s2 0x6b 0x20 (col2 (row i)) = (None, s3) /\
    snd (SetFrequency (NewL3GD Sim.ideal DefaultAddress) 100 (Sim.start Sim.blank))
    = {| dev := s3;
         log := [(TxWriteByte 0x6b 0x23 0x00, None);
                 (TxWriteByte 0x6b 0x39 (col1 (row i)), None);
                 (TxWriteByte 0x6b 0x20 (col2 (row i)), None)] |} /\
    (100 = 100 -> col1 (row i) = 0x00 /\ col2 (row i) = 0x0f) /\
    (100 = 12 -> col1 (row i) = 0x01 /\ col2 (row i) = 0x0f).
Proof.
  apply (SetFrequency_three_writes_in_order
           (NewL3GD Sim.ideal DefaultAddress) 100 (Sim.start Sim.blank)).
  reflexivity.
Defined.

(** C8. If the first write of [SetFrequency] succeeds and the second (to
    LOW_ODR) fails with [e], [SetFrequency] returns [e] itself, the log holds
    these two writes and no third, and the device is in the state the second
    write left it in.  More generally, in each of the four methods a failed
    transaction is the last one issued and its error is the one returned. *)
Theorem SetFrequency_second_write_failure {St Err} (l3g : L3GD St Err) (hz : Z) :
  (forall (w : World St Err) i s1 s2 e,
     selects hz i ->
     WriteByteToReg (bus l3g) (dev w) (address l3g) 0x23 0x00 = (None, s1) ->
     WriteByteToReg (bus l3g) s1 (address l3g) 0x39 (col1 (row i)) = (Some e, s2) ->
     SetFrequency l3g hz w =
       (Some (BusError e),
        {| dev := s2;
           log := log w ++
             [(TxWriteByte (address l3g) 0x23 0x00, None);
              (TxWriteByte (address l3g) 0x39 (col1 (row i)), Some e)] |})) /\
  short_circuits (Sleep l3g) (fun r => r) /\
  short_circuits (Wake l3g) (fun r => r) /\
  short_circuits (SetFrequency l3g hz) (fun r => r) /\
  short_circuits (Read l3g) snd.
Proof.
  split; [|split; [|split; [|split]]].
  - intros w i s1 s2 e Hsel H1 H2.
    rewrite (SetFrequency_run l3g hz i w Hsel). unfold three_writes.
    change regCtrl4 with 0x23. change regLowOdr with 0x39.
    rewrite H1, H2. reflexivity.
  - apply (update_ctrl1_short_circuits l3g _ _ (Sleep_run l3g)).
  - apply (update_ctrl1_short_circuits l3g _ _ (Wake_run l3g)).
  - destruct (SetFrequency_loop_from_start l3g hz) as [i [Hsel _]].
    intros w. rewrite (SetFrequency_run l3g hz i w Hsel).
    apply three_writes_short_circuits.
  - apply Read_short_circuits.
Qed.

Lemma SetFrequency_second_write_failure_witness :
  SetFrequency (NewL3GD Sim.flaky DefaultAddress) 100 (Sim.start (1%nat, Sim.blank)) =
    (Some (BusError Sim.ErrRemoteIO),
     {| dev := (0%nat, Sim.store Sim.blank 0x6b 0x23 0x00);
        log := [(TxWriteByte 0x6b 0x23 0x00, None);
                (TxWriteByte 0x6b 0x39 0x00, Some Sim.ErrRemoteIO)] |}).
Proof.
  apply (proj1 (SetFrequency_second_write_failure
                  (NewL3GD Sim.flaky DefaultAddress) 100)
               (Sim.start (1%nat, Sim.blank)) 3%nat
               (0%nat, Sim.store Sim.blank 0x6b 0x23 0x00)
               (0%nat, Sim.store Sim.blank 0x6b 0x23 0x00)
               Sim.ErrRemoteIO).
  - exact selects_100.
  - reflexivity.
  - reflexivity.
Defined.

(** ** Sleep and Wake *)

Lemma and_not_bit3 (V i : Z) :
  Z.testbit (and_not V 0x08) i = if i =? 3 then false else Z.testbit V i.
Proof.
  unfold and_not. rewrite Z.ldiff_spec. change 0x08 with (2 ^ 3).
  destruct (i =? 3) eqn:E.
  - apply Z.eqb_eq in E. subst. rewrite Z.pow2_bits_true by lia.
    apply andb_false_r.
  - apply Z.eqb_neq in E. rewrite Z.pow2_bits_false by lia.
    apply andb_true_r.
Qed.

Lemma testbit_f0 (i : Z) : Z.testbit 0xf0 i = (4 <=? i) && (i <=? 7).
Proof.
  destruct (Z_lt_ge_dec i 0) as [Hneg | Hpos].
  - rewrite Z.testbit_neg_r by lia.
    destruct (4 <=? i) eqn:E; [apply Z.leb_le in E; lia | reflexivity].
  - destruct (Z_lt_ge_dec i 8) as [Hlt | Hge].
    + assert (i = 0 \/ i = 1 \/ i = 2 \/ i = 3 \/ i = 4 \/ i = 5 \/ i = 6 \/ i = 7)
        as Hcases by lia.
      repeat (destruct Hcases as [-> | Hcases]; [reflexivity|]).
      subst. reflexivity.
    + rewrite byte_high_bits by (unfold is_byte; lia).
      destruct (i <=? 7) eqn:E; [apply Z.leb_le in E; lia|].
      symmetry. apply andb_false_r.
Qed.

Lemma lor_f0_bits (V i : Z) :
  Z.testbit (Z.lor V 0xf0) i = if (4 <=? i) && (i <=? 7) then true else Z.testbit V i.
Proof.
  rewrite Z.lor_spec, testbit_f0.
  destruct ((4 <=? i) && (i <=? 7)); [apply orb_true_r | apply orb_false_r].
Qed.

(** A non-negative number with no bit set from bit 8 up is a byte. *)
Lemma is_byte_by_bits (x : Z) :
  0 <= x -> (forall i, 8 <= i -> Z.testbit x i = false) -> is_byte x.
Proof.
  intros Hnn Hbits. split; [exact Hnn|].
  destruct (Z_lt_ge_dec x 256) as [Hlt | Hge]; [exact Hlt|].
  assert (8 <= Z.log2 x) as Hlog.
  { change 8 with (Z.log2 256). apply Z.log2_le_mono. lia. }
  specialize (Hbits (Z.log2 x) Hlog).
  rewrite Z.bit_log2 in Hbits by lia. discriminate.
Qed.

Lemma and_not_is_byte (V : Z) : is_byte V -> is_byte (and_not V 0x08).
Proof.
  intros HV. apply is_byte_by_bits.
  - unfold and_not. apply Z.ldiff_nonneg. left. apply HV.
  - intros i Hi. rewrite and_not_bit3.
    destruct (i =? 3); [reflexivity | apply byte_high_bits; assumption].
Qed.

Lemma lor_f0_is_byte (V : Z) : is_byte V -> is_byte (Z.lor V 0xf0).
Proof.
  intros HV. apply is_byte_by_bits.
  - apply Z.lor_nonneg. split; [apply HV | lia].
  - intros i Hi. rewrite lor_f0_bits.
    destruct (4 <=? i) eqn:E1; cbn [andb]; [|apply byte_high_bits; assumption].
    destruct (i <=? 7) eqn:E2; [apply Z.leb_le in E2; lia|].
    apply byte_high_bits; assumption.
Qed.

(** C5. When [Sleep] reads [V] from CTRL1, it writes back to CTRL1 exactly
    [V] with bit 3 cleared: bit 3 of the written byte is 0, every other bit is
    the bit of [V], and [Sleep] returns what that write returns. *)
Theorem Sleep_clears_bit3_only {St Err} (l3g : L3GD St Err) (w : World St Err)
        (V : Z) (s1 : St) :
  ReadByteFromReg (bus l3g) (dev w) (address l3g) 0x20 = ((V, None), s1) ->
  let written := and_not V 0x08 in
  Sleep l3g w =
    (as_error (fst (WriteByteToReg (bus l3g) s1 (address l3g) 0x20 written)),
     {| dev := snd (WriteByteToReg (bus l3g) s1 (address l3g) 0x20 written);
        log := log w ++
          [(TxReadByte (address l3g) 0x20, None);
           (TxWriteByte (address l3g) 0x20 written,
            fst (WriteByteToReg (bus l3g) s1 (address l3g) 0x20 written))] |}) /\
  Z.testbit written 3 = false /\
  (forall i, i <> 3 -> Z.testbit written i = Z.testbit V i) /\
  (is_byte V -> is_byte written).
Proof.
  intros Hread written. split; [|split; [|split]].
  - rewrite Sleep_run. unfold update_ctrl1. change regCtrl1 with 0x20.
    rewrite Hread. change (Z.shiftl 1 3) with 0x08. fold written.
    destruct (WriteByteToReg _ _ _ _ _) as [e2 s2]. reflexivity.
  - unfold written. rewrite and_not_bit3. reflexivity.
  - intros i Hi. unfold written. rewrite and_not_bit3.
    destruct (i =? 3) eqn:E; [apply Z.eqb_eq in E; contradiction | reflexivity].
  - apply and_not_is_byte.
Qed.

Lemma Sleep_clears_bit3_only_witness :
  log (snd (Sleep (NewL3GD Sim.ideal DefaultAddress)
                  (Sim.start (Sim.load Sim.blank DefaultAddress 0x20 [0x6f]))))
  = [(TxReadByte 0x6b 0x20, None); (TxWriteByte 0x6b 0x20 0x67, None)].
Proof.
  pose proof (Sleep_clears_bit3_only
                (NewL3GD Sim.ideal DefaultAddress)
                (Sim.start (Sim.load Sim.blank DefaultAddress 0x20 [0x6f]))
                0x6f (Sim.load Sim.blank DefaultAddress 0x20 [0x6f])
                eq_refl) as [Hrun _].
  rewrite Hrun. reflexivity.
Defined.

(** C6. When [Wake] reads [V] from CTRL1, it writes back to CTRL1 exactly
    [V | 0xF0]: bits 4-7 of the written byte are 1 whatever [V] is, every
    other bit is the bit of [V], and [Wake] returns what that write
    returns. *)
Theorem Wake_sets_high_nibble_only {St Err} (l3g : L3GD St Err) (w : World St Err)
        (V : Z) (s1 : St) :
  ReadByteFromReg (bus l3g) (dev w) (address l3g) 0x20 = ((V, None), s1) ->
  let written := Z.lor V 0xf0 in
  Wake l3g w =
    (as_error (fst (WriteByteToReg (bus l3g) s1 (address l3g) 0x20 written)),
     {| dev := snd (WriteByteToReg (bus l3g) s1 (address l3g) 0x20 written);
        log := log w ++
          [(TxReadByte (address l3g) 0x20, None);
           (TxWriteByte (address l3g) 0x20 written,
            fst (WriteByteToReg (bus l3g) s1 (address l3g) 0x20 written))] |}) /\
  (forall i, 4 <= i <= 7 -> Z.testbit written i = true) /\
  (forall i, ~ 4 <= i <= 7 -> Z.testbit written i = Z.testbit V i) /\
  (is_byte V -> is_byte written).
Proof.
  intros Hread written. split; [|split; [|split]].
  - rewrite Wake_run. unfold update_ctrl1. change regCtrl1 with 0x20.
    rewrite Hread. fold written.
    destruct (WriteByteToReg _ _ _ _ _) as [e2 s2]. reflexivity.
  - intros i Hi. unfold written. rewrite lor_f0_bits.
    destruct (4 <=? i) eqn:E1; [|apply Z.leb_gt in E1; lia].
    destruct (i <=? 7) eqn:E2; [reflexivity | apply Z.leb_gt in E2; lia].
  - intros i Hi. unfold written. rewrite lor_f0_bits.
    destruct (4 <=? i) eqn:E1; [|reflexivity].
    destruct (i <=? 7) eqn:E2; [|reflexivity].
    apply Z.leb_le in E1, E2. lia.
  - apply lor_f0_is_byte.
Qed.

Lemma Wake_sets_high_nibble_only_witness :
  log (snd (Wake (NewL3GD Sim.ideal DefaultAddress)
                 (Sim.start (Sim.load Sim.blank DefaultAddress 0x20 [0x07]))))
  = [(TxReadByte 0x6b 0x20, None); (TxWriteByte 0x6b 0x20 0xf7, None)].
Proof.
  pose proof (Wake_sets_high_nibble_only
                (NewL3GD Sim.ideal DefaultAddress)
                (Sim.start (Sim.load Sim.blank DefaultAddress 0x20 [0x07]))
                0x07 (Sim.load Sim.blank DefaultAddress 0x20 [0x07])
                eq_refl) as [Hrun _].
  rewrite Hrun. reflexivity.
Defined.

(** C7. Let CTRL1 hold [V] when [Sleep] reads it, let both writes succeed,
    and let [Wake] read back what [Sleep] wrote (no change in between).  Then
    [Sleep] followed by [Wake] both return nil and the last write leaves
    [(V & ~0x08) | 0xF0] in CTRL1.  That value need not be [V]: for
    [V = 0x0F] it is 0xF7. *)
Theorem Sleep_then_Wake_value {St Err} (l3g : L3GD St Err) (w : World St Err)
        (V : Z) (s1 s2 s3 s4 : St) :
  ReadByteFromReg (bus l3g) (dev w) (address l3g) 0x20 = ((V, None), s1) ->
  WriteByteToReg (bus l3g) s1 (address l3g) 0x20 (Z.land V (Z.lnot 0x08))
    = (None, s2) ->
  ReadByteFromReg (bus l3g) s2 (address l3g) 0x20
    = ((Z.land V (Z.lnot 0x08), None), s3) ->
  WriteByteToReg (bus l3g) s3 (address l3g) 0x20
                 (Z.lor (Z.land V (Z.lnot 0x08)) 0xf0) = (None, s4) ->
  Sleep_then_Wake l3g w =
    ((None, None),
     {| dev := s4;
        log := log w ++
          [(TxReadByte (address l3g) 0x20, None);
           (TxWriteByte (address l3g) 0x20 (Z.land V (Z.lnot 0x08)), None);
           (TxReadByte (address l3g) 0x20, None);
           (TxWriteByte (address l3g) 0x20
                        (Z.lor (Z.land V (Z.lnot 0x08)) 0xf0), None)] |}) /\
  Z.lor (Z.land 0x0f (Z.lnot 0x08)) 0xf0 = 0xf7.
Proof.
  intros H1 H2 H3 H4. split; [|reflexivity].
  unfold Sleep_then_Wake, bind, ret.
  rewrite Sleep_run. unfold update_ctrl1 at 1. change regCtrl1 with 0x20.
  rewrite H1. change (Z.shiftl 1 3) with 0x08.
  unfold and_not. rewrite Z.ldiff_land, H2. cbn [as_error option_map].
  rewrite Wake_run. unfold update_ctrl1. change regCtrl1 with 0x20.
  cbn [dev log]. rewrite H3, H4. cbn [as_error option_map].
  rewrite <- app_assoc. reflexivity.
Qed.

Lemma Sleep_then_Wake_value_witness :
  fst (Sleep_then_Wake (NewL3GD Sim.ideal DefaultAddress)
         (Sim.start (Sim.load Sim.blank DefaultAddress 0x20 [0x0f])))
  = (None, None).
Proof.
  pose proof (Sleep_then_Wake_value
    (NewL3GD Sim.ideal DefaultAddress)
    (Sim.start (Sim.load Sim.blank DefaultAddress 0x20 [0x0f]))
    0x0f
    (Sim.load Sim.blank DefaultAddress 0x20 [0x0f])
    (Sim.store (Sim.load Sim.blank DefaultAddress 0x20 [0x0f]) 0x6b 0x20 0x07)
    (Sim.store (Sim.load Sim.blank DefaultAddress 0x20 [0x0f]) 0x6b 0x20 0x07)
    (Sim.store
       (Sim.store (Sim.load Sim.blank DefaultAddress 0x20 [0x0f]) 0x6b 0x20 0x07)
       0x6b 0x20 0xf7)
    eq_refl eq_refl eq_refl eq_refl) as [Hrun _].
  rewrite Hrun. reflexivity.
Defined.

(** On the simulated register file, whatever CTRL1 holds before, it holds
    [(V & ~0x08) | 0xF0] after [Sleep] and [Wake]. *)
Lemma Sleep_then_Wake_on_register_file (m : Sim.regs) (addr : Z) :
  let V := m addr regCtrl1 in
  let w' := snd (Sleep_then_Wake (NewL3GD Sim.ideal addr) (Sim.start m)) in
  dev w' addr regCtrl1 = Z.lor (Z.land V (Z.lnot 0x08)) 0xf0.
Proof.
  intros V w'. unfold w', Sleep_then_Wake, bind, ret.
  rewrite Sleep_run. unfold update_ctrl1 at 1.
  cbn [bus address NewL3GD Sim.ideal ReadByteFromReg WriteByteToReg Sim.start dev log].
  rewrite Wake_run. unfold update_ctrl1.
  cbn [bus address NewL3GD Sim.ideal ReadByteFromReg WriteByteToReg dev log snd].
  unfold Sim.store. rewrite !Z.eqb_refl. cbn [andb].
  unfold and_not. rewrite Z.ldiff_land. reflexivity.
Qed.

(** ** Read *)

(** C9. [Read] issues one transaction: a slice read of 7 bytes at register
    address 0xA7, which is 0x27 with the top bit set.  If it succeeds, the
    vector returned is the one decoded from bytes 1-6, whatever the status
    byte is, and the error is nil or a DataAvailabilityError; if it fails
    with [e], [Read] returns [e] with the zero vector and no
    data-availability outcome. *)
Theorem Read_single_burst {St Err} (l3g : L3GD St Err) (w : World St Err) :
  let bus_result :=
    ReadSliceFromReg (bus l3g) (dev w) (address l3g) 0xa7 (repeat 0 7) in
  let data := fst (fst bus_result) in
  let err := snd (snd (fst bus_result)) in
  let v := fst (fst (Read l3g w)) in
  let r := snd (fst (Read l3g w)) in
  log (snd (Read l3g w)) = log w ++ [(TxReadSlice (address l3g) 0xa7 7, err)] /\
  dev (snd (Read l3g w)) = snd bus_result /\
  0xa7 = Z.lor 0x27 0x80 /\
  match err with
  | None =>
      v = {| X := decode_axis (nth 2 data 0) (nth 1 data 0);
             Y := decode_axis (nth 4 data 0) (nth 3 data 0);
             Z_ := decode_axis (nth 6 data 0) (nth 5 data 0) |} /\
      r = option_map DataAvailability (status_error (nth 0 data 0)) /\
      read_status r = Some (status_by_nibbles (nth 0 data 0))
  | Some e =>
      v = zero_vector /\ r = Some (BusError e) /\ read_status r = None
  end.
Proof.
  intros bus_result data err v r.
  destruct bus_result as [[data' [n err']] s'] eqn:Hbus.
  unfold bus_result in Hbus. change 0xa7 with regOutBurst in Hbus.
  unfold v, r. rewrite (Read_run l3g w _ _ _ _ Hbus).
  subst data err. cbn [fst snd dev log].
  change regOutBurst with 0xa7.
  destruct err' as [e|]; repeat split.
  rewrite <- status_error_by_nibbles.
  destruct (status_error (nth 0 data' 0)); reflexivity.
Qed.

(** ** DataAvailabilityError *)

Lemma status_error_one_flag (b : Z) (d : DataAvailabilityError) :
  status_error b = Some d ->
  d = {| NewDataNotAvailable := false; NewDataWasOverwritten := true |} \/
  d = {| NewDataNotAvailable := true; NewDataWasOverwritten := false |}.
Proof.
  unfold status_error.
  destruct (Z.land b 0xf0 >? 0); [intros [= <-]; left; reflexivity|].
  destruct (Z.land b 0x0f =? 0); [intros [= <-]; right; reflexivity|].
  discriminate.
Qed.

(** C10. A DataAvailabilityError returned by [Read] has exactly one of its
    two flags set.  So [Error] describes an overrun as an overrun and a
    missing measurement as such, and never returns its "unknown error"
    text. *)
Theorem Read_error_has_one_flag {St Err} (l3g : L3GD St Err)
        (w w' : World St Err) (v : Vector) (d : DataAvailabilityError) :
  Read l3g w = ((v, Some (DataAvailability d)), w') ->
  NewDataNotAvailable d = negb (NewDataWasOverwritten d) /\
  (NewDataWasOverwritten d = true -> Error d = msgOverwritten) /\
  (NewDataNotAvailable d = true -> Error d = msgNotAvailable) /\
  Error d <> msgUnknown.
Proof.
  intros Hread.
  destruct (ReadSliceFromReg (bus l3g) (dev w) (address l3g) regOutBurst
                             (repeat 0 7)) as [[data [n err]] s'] eqn:Hbus.
  rewrite (Read_run l3g w _ _ _ _ Hbus) in Hread.
  destruct err as [e|]; [discriminate|].
  destruct (status_error (nth 0 data 0)) as [d'|] eqn:Hst; [|discriminate].
  cbn [option_map] in Hread. injection Hread as _ <- _.
  destruct (status_error_one_flag _ _ Hst) as [-> | ->];
    cbn [NewDataNotAvailable NewDataWasOverwritten negb];
    repeat split; try reflexivity; try discriminate.
Qed.

Lemma Read_error_has_one_flag_witness :
  Error {| NewDataNotAvailable := false; NewDataWasOverwritten := true |}
  = msgOverwritten.
Proof.
  apply (Read_error_has_one_flag
           (NewL3GD Sim.ideal DefaultAddress)
           (Sim.start (Sim.load Sim.blank DefaultAddress 0x27 [0xf0; 1; 0; 2; 0; 3; 0]))
           {| dev := Sim.load Sim.blank DefaultAddress 0x27 [0xf0; 1; 0; 2; 0; 3; 0];
              log := [(TxReadSlice 0x6b 0xa7 7, None)] |}
           {| X := 1; Y := 2; Z_ := 3 |}
           {| NewDataNotAvailable := false; NewDataWasOverwritten := true |}).
  - reflexivity.
  - reflexivity.
Defined.

(** * Further properties *)

(** ** Decoding *)

Lemma decode_axis_correct_iff_witness :
  decode_axis 0x12 0x34 = twos_complement16 0x34 0x12 <-> 0x34 < 128 \/ 0x12 = 255.
Proof.
  apply (decode_axis_correct_iff 0x12 0x34); unfold is_byte; lia.
Defined.

Lemma to_int8_to_byte (b : Z) : to_int8 (to_byte b) = to_int8 b.
Proof. unfold to_int8, to_byte. rewrite Z.mod_mod by lia. reflexivity. Qed.

Lemma decode_axis_to_byte (hi lo : Z) :
  decode_axis hi lo = decode_axis (to_byte hi) (to_byte lo).
Proof. unfold decode_axis. rewrite !to_int8_to_byte. reflexivity. Qed.

(** Whatever the two bytes are, the decoded component fits in sixteen bits;
    and when the low byte has its top bit set the component lies in
    -128..-1. *)
Lemma decode_axis_bounds (hi lo : Z) :
  -32768 <= decode_axis hi lo <= 32767 /\
  (128 <= to_byte lo -> -128 <= decode_axis hi lo <= -1).
Proof.
  rewrite decode_axis_to_byte.
  pose proof (to_byte_is_byte hi) as Hhi. pose proof (to_byte_is_byte lo) as Hlo.
  unfold is_byte in Hlo.
  destruct (Z_lt_ge_dec (to_byte lo) 128) as [Hlow | Hhigh].
  - split; [|lia].
    rewrite decode_axis_low_byte_positive by (assumption || lia).
    unfold twos_complement16, is_byte in *.
    destruct (to_byte lo + 256 * to_byte hi <? 32768) eqn:E;
      [apply Z.ltb_lt in E | apply Z.ltb_ge in E]; lia.
  - rewrite decode_axis_low_byte_negative by lia. lia.
Qed.

(** Whatever the bus does, each component of the vector [Read] returns is an
    integer of the signed sixteen-bit range -32768..32767 (so the conversion
    to float64 in the source is exact). *)
Theorem Read_vector_in_range {St Err} (l3g : L3GD St Err) (w : World St Err) :
  let v := fst (fst (Read l3g w)) in
  -32768 <= X v <= 32767 /\ -32768 <= Y v <= 32767 /\ -32768 <= Z_ v <= 32767.
Proof.
  destruct (ReadSliceFromReg (bus l3g) (dev w) (address l3g) regOutBurst
                             (repeat 0 7)) as [[data [n err]] s'] eqn:Hbus.
  rewrite (Read_run l3g w _ _ _ _ Hbus).
  destruct err as [e|]; cbn [fst X Y Z_ zero_vector decode_vector].
  - lia.
  - repeat split; apply decode_axis_bounds.
Qed.

(** ** Error texts *)

(** The text of [Error] tells the case apart: the "no new measurement" text
    exactly when NewDataNotAvailable is set (also when both flags are set,
    the overrun then goes unmentioned), the "overwritten" text exactly when
    only NewDataWasOverwritten is set, the "unknown" text exactly when
    neither is. *)
Theorem Error_text_cases (d : DataAvailabilityError) :
  (Error d = msgNotAvailable <-> NewDataNotAvailable d = true) /\
  (Error d = msgOverwritten <->
     NewDataNotAvailable d = false /\ NewDataWasOverwritten d = true) /\
  (Error d = msgUnknown <->
     NewDataNotAvailable d = false /\ NewDataWasOverwritten d = false).
Proof.
  destruct d as [[|] [|]]; unfold Error; cbn [NewDataNotAvailable NewDataWasOverwritten];
    repeat split; intros; try reflexivity; try discriminate;
    try (destruct H; discriminate).
Qed.

(** ** Frequency selection, as a function *)

(** The loop of [SetFrequency] runs its body at [selected_index]. *)
Lemma SetFrequency_loop_index {St Err} (l3g : L3GD St Err) (hz : Z) :
  forall n i,
    SetFrequency_loop l3g hz n i =
    match selected_index_from hz n i with
    | Some k => SetFrequency_body l3g k
    | None => ret None
    end.
Proof.
  induction n as [|n IH]; intros i; cbn [SetFrequency_loop selected_index_from].
  - reflexivity.
  - destruct ((col0 (row i) >=? hz)
              || (i =? length bitsLowodrDrForFrequency - 1)%nat);
      [reflexivity | apply IH].
Qed.

Lemma selected_index_from_selects (hz : Z) :
  forall n i,
    (n + i = length bitsLowodrDrForFrequency)%nat -> (0 < n)%nat ->
    (forall j, (j < i)%nat -> col0 (row j) < hz) ->
    exists k, selected_index_from hz n i = Some k /\ selects hz k.
Proof.
  induction n as [|n IH]; intros i Hsum Hpos Hbelow; [lia|].
  cbn [selected_index_from].
  destruct (col0 (row i) >=? hz) eqn:Hge; cbn [orb].
  - exists i. split; [reflexivity|].
    split; [lia|]. left. split; [|exact Hbelow].
    rewrite Z.geb_leb in Hge. apply Z.leb_le, Hge.
  - rewrite Z.geb_leb in Hge. apply Z.leb_gt in Hge.
    assert (forall j, (j < S i)%nat -> col0 (row j) < hz) as Hnext.
    { intros j Hj. destruct (Nat.eq_dec j i) as [-> | Hne]; [exact Hge|].
      apply Hbelow. lia. }
    destruct (i =? length bitsLowodrDrForFrequency - 1)%nat eqn:Hlast.
    + apply Nat.eqb_eq in Hlast. exists i. split; [reflexivity|].
      split; [lia|]. right. split; [lia|].
      intros j Hj. apply Hnext. lia.
    + apply Nat.eqb_neq in Hlast. apply IH; [lia | lia | exact Hnext].
Qed.

Lemma selected_index_iff (hz : Z) (i : nat) :
  selected_index hz = Some i <-> selects hz i.
Proof.
  destruct (selected_index_from_selects hz (length bitsLowodrDrForFrequency) 0)
    as [k [Hk Hsel]]; rewrite ?table_length; try lia.
  unfold selected_index. rewrite table_length in *. rewrite Hk. split.
  - intros [= <-]. exact Hsel.
  - intros Hi. f_equal. apply (selects_unique hz k i Hsel Hi).
Qed.

Lemma table_rates_monotone (j k : nat) :
  (j <= k < length bitsLowodrDrForFrequency)%nat -> col0 (row j) <= col0 (row k).
Proof.
  intros H. destruct (Nat.eq_dec j k) as [-> | Hne]; [lia|].
  apply Z.lt_le_incl, table_ascending. lia.
Qed.

(** Selection is monotone: a request for a higher rate never selects an
    earlier row, nor a lower rate. *)
Theorem selected_index_monotone (hz1 hz2 : Z) (i1 i2 : nat) :
  hz1 <= hz2 ->
  selected_index hz1 = Some i1 ->
  selected_index hz2 = Some i2 ->
  (i1 <= i2)%nat /\ col0 (row i1) <= col0 (row i2).
Proof.
  intros Hle H1 H2.
  apply selected_index_iff in H1. apply selected_index_iff in H2.
  assert (i1 <= i2)%nat as Hidx.
  { destruct (Nat.le_gt_cases i1 i2) as [Hok | Hgt]; [exact Hok|]. exfalso.
    destruct H2 as [Hi2 [[Hge2 _] | [Hlast2 _]]];
      [|destruct H1 as [Hi1 _]; lia].
    destruct H1 as [Hi1 [[_ Hbelow1] | [_ Hnone1]]].
    - specialize (Hbelow1 i2 Hgt). lia.
    - specialize (Hnone1 i2 Hi2). lia. }
  split; [exact Hidx|].
  apply table_rates_monotone. destruct H2 as [Hi2 _]. lia.
Qed.

Lemma selected_index_monotone_witness :
  (3 <= 4)%nat /\ col0 (row 3) <= col0 (row 4).
Proof.
  apply (selected_index_monotone 60 150 3 4); [lia | reflexivity | reflexivity].
Defined.

(** Asking for a rate that is in the table selects that very row. *)
Theorem selected_index_of_tabulated_rate (i : nat) :
  (i < length bitsLowodrDrForFrequency)%nat ->
  selected_index (col0 (row i)) = Some i.
Proof.
  intros Hi. apply selected_index_iff. split; [exact Hi|]. left.
  split; [lia|]. intros j Hj. apply table_ascending. lia.
Qed.

Lemma selected_index_of_tabulated_rate_witness :
  selected_index (col0 (row 5)) = Some 5%nat.
Proof.
  apply (selected_index_of_tabulated_rate 5). vm_compute. lia.
Defined.

(** Up to 800 the selected rate is the least tabulated rate that is at least
    the requested one: the request is rounded up, never down. *)
Theorem selected_rate_rounds_up (hz : Z) (i : nat) :
  hz <= 800 ->
  selected_index hz = Some i ->
  hz <= col0 (row i) /\
  forall j, (j < length bitsLowodrDrForFrequency)%nat ->
            hz <= col0 (row j) -> col0 (row i) <= col0 (row j).
Proof.
  intros Hmax Hsel. apply selected_index_iff in Hsel.
  destruct Hsel as [Hi [[Hge Hbelow] | [Hlast Hnone]]].
  - split; [exact Hge|]. intros j Hj Hjge.
    destruct (Nat.le_gt_cases i j) as [Hij | Hji].
    + apply table_rates_monotone. lia.
    + specialize (Hbelow j Hji). lia.
  - exfalso. specialize (Hnone 6%nat). rewrite table_length in Hnone.
    assert (col0 (row 6) < hz) as Hlt by (apply Hnone; lia).
    change (col0 (row 6)) with 800 in Hlt. lia.
Qed.

Lemma selected_rate_rounds_up_witness :
  13 <= col0 (row 1) /\
  forall j, (j < length bitsLowodrDrForFrequency)%nat ->
            13 <= col0 (row j) -> col0 (row 1) <= col0 (row j).
Proof.
  apply (selected_rate_rounds_up 13 1); [lia | reflexivity].
Defined.

(** Out-of-range requests are clamped: anything up to 12 (zero and negative
    values too) selects the first row, anything above 400 the last one. *)
Theorem selected_index_clamps (hz : Z) :
  (hz <= 12 -> selected_index hz = Some 0%nat) /\
  (400 < hz -> selected_index hz = Some 6%nat).
Proof.
  split; intros H; apply selected_index_iff.
  - split; [rewrite table_length; lia|]. left.
    split; [change (col0 (row 0)) with 12; lia | intros j Hj; lia].
  - split; [rewrite table_length; lia|].
    destruct (Z_le_gt_dec hz 800) as [Hle | Hgt].
    + left. split; [change (col0 (row 6)) with 800; lia|].
      intros j Hj.
      apply Z.le_lt_trans with (col0 (row 5)); [|change (col0 (row 5)) with 400; lia].
      apply table_rates_monotone. rewrite table_length. lia.
    + right. split; [reflexivity|]. intros j Hj.
      apply Z.le_lt_trans with (col0 (row 6)); [|change (col0 (row 6)) with 800; lia].
      apply table_rates_monotone. rewrite table_length in *. lia.
Qed.

Lemma selected_index_clamps_witness :
  selected_index (-5) = Some 0%nat /\ selected_index 100000 = Some 6%nat.
Proof.
  split.
  - apply (proj1 (selected_index_clamps (-5))). lia.
  - apply (proj2 (selected_index_clamps 100000)). lia.
Defined.

(** ** What SetFrequency puts in the registers *)

Lemma selects_bound (hz : Z) (i : nat) : selects hz i -> (i < 7)%nat.
Proof. intros [Hi _]. rewrite table_length in Hi. exact Hi. Qed.

(** A [SetFrequency] that returns nil has made three successful writes on
    the bus: 0 to CTRL4, then 0 or 1 to LOW_ODR, then to CTRL1 a byte below
    0x40 whose bits 0-3 are all set; the device is left in the state that
    last write produced.  So whatever the requested rate, the power bit and
    the three axis bits end up on: where CTRL1 behaves as a register, it
    holds that byte afterwards. *)
Theorem SetFrequency_settings {St Err} (l3g : L3GD St Err) (hz : Z)
        (w w' : World St Err) :
  SetFrequency l3g hz w = (None, w') ->
  exists low ctrl s1 s2,
    WriteByteToReg (bus l3g) (dev w) (address l3g) regCtrl4 0 = (None, s1) /\
    WriteByteToReg (bus l3g) s1 (address l3g) regLowOdr low = (None, s2) /\
    WriteByteToReg (bus l3g) s2 (address l3g) regCtrl1 ctrl = (None, dev w') /\
    log w' = log w ++
      [(TxWriteByte (address l3g) regCtrl4 0, None);
       (TxWriteByte (address l3g) regLowOdr low, None);
       (TxWriteByte (address l3g) regCtrl1 ctrl, None)] /\
    (low = 0 \/ low = 1) /\
    Z.land ctrl 0x0f = 0x0f /\ 0 <= ctrl < 0x40 /\
    forall holds : St -> Z -> Prop,
      ctrl1_register (bus l3g) (address l3g) holds -> holds (dev w') ctrl.
Proof.
  intros Hok.
  destruct (SetFrequency_loop_from_start l3g hz) as [i [Hsel _]].
  rewrite (SetFrequency_run l3g hz i w Hsel) in Hok. unfold three_writes in Hok.
  destruct (WriteByteToReg (bus l3g) (dev w) (address l3g) regCtrl4 0)
    as [[e1|] s1] eqn:H1; [discriminate|].
  destruct (WriteByteToReg (bus l3g) s1 (address l3g) regLowOdr (col1 (row i)))
    as [[e2|] s2] eqn:H2; [discriminate|].
  destruct (WriteByteToReg (bus l3g) s2 (address l3g) regCtrl1 (col2 (row i)))
    as [[e3|] s3] eqn:H3; [discriminate|].
  injection Hok as <-. cbn [dev log].
  exists (col1 (row i)), (col2 (row i)), s1, s2.
  split; [first [exact H1 | reflexivity]|].
  split; [exact H2|]. split; [exact H3|].
  split; [reflexivity|].
  assert ((col1 (row i) = 0 \/ col1 (row i) = 1) /\
          Z.land (col2 (row i)) 0x0f = 0x0f /\ 0 <= col2 (row i) < 0x40)
    as [Hlow [Hland Hrange]].
  { apply selects_bound in Hsel.
    do 7 (destruct i as [|i]; [cbv; intuition congruence|]). lia. }
  split; [exact Hlow|]. split; [exact Hland|]. split; [exact Hrange|].
  intros holds Hreg.
  destruct (ctrl1_write _ _ _ Hreg s2 (col2 (row i))) as [s' [Hw Hholds]].
  rewrite H3 in Hw. injection Hw as <-. exact Hholds.
Qed.

Lemma SetFrequency_settings_witness :
  exists low ctrl s1 s2,
    WriteByteToReg Sim.ideal Sim.blank 0x6b regCtrl4 0 = (None, s1) /\
    WriteByteToReg Sim.ideal s1 0x6b regLowOdr low = (None, s2) /\
    WriteByteToReg Sim.ideal s2 0x6b regCtrl1 ctrl
    = (None, dev (snd (SetFrequency (NewL3GD Sim.ideal DefaultAddress) 30
                                    (Sim.start Sim.blank)))) /\
    log (snd (SetFrequency (NewL3GD Sim.ideal DefaultAddress) 30
                           (Sim.start Sim.blank)))
    = [(TxWriteByte 0x6b regCtrl4 0, None);
       (TxWriteByte 0x6b regLowOdr low, None);
       (TxWriteByte 0x6b regCtrl1 ctrl, None)] /\
    (low = 0 \/ low = 1) /\
    Z.land ctrl 0x0f = 0x0f /\ 0 <= ctrl < 0x40 /\
    forall holds : Sim.regs -> Z -> Prop,
      ctrl1_register Sim.ideal 0x6b holds ->
      holds (dev (snd (SetFrequency (NewL3GD Sim.ideal DefaultAddress) 30
                                    (Sim.start Sim.blank)))) ctrl.
Proof.
  apply (SetFrequency_settings (NewL3GD Sim.ideal DefaultAddress) 30
                               (Sim.start Sim.blank)).
  reflexivity.
Defined.

(** Two requests put the same bytes in LOW_ODR and CTRL1 only if they select
    the same row: no two rates share their register settings. *)
Theorem settings_determine_row (hz1 hz2 : Z) (i1 i2 : nat) :
  selected_index hz1 = Some i1 ->
  selected_index hz2 = Some i2 ->
  col1 (row i1) = col1 (row i2) ->
  col2 (row i1) = col2 (row i2) ->
  i1 = i2.
Proof.
  intros H1 H2 Hlow Hctrl.
  apply selected_index_iff, selects_bound in H1.
  apply selected_index_iff, selects_bound in H2.
  do 7 (destruct i1 as [|i1];
        [do 7 (destruct i2 as [|i2];
               [first [reflexivity | cbv in Hlow, Hctrl; congruence]|]); lia|]).
  lia.
Qed.

Lemma settings_determine_row_witness : 3%nat = 3%nat.
Proof.
  apply (settings_determine_row 100 90 3 3); reflexivity.
Defined.

(** ** Failures *)

(** If the first write of [SetFrequency] (to CTRL4) fails, nothing else is
    issued; if the third (to CTRL1) fails, CTRL4 and LOW_ODR have been
    written already.  In both cases the bus error is returned as it is. *)
Theorem SetFrequency_first_or_third_write_failure {St Err}
        (l3g : L3GD St Err) (hz : Z) (w : World St Err) :
  (forall e s1,
     WriteByteToReg (bus l3g) (dev w) (address l3g) regCtrl4 0 = (Some e, s1) ->
     SetFrequency l3g hz w =
       (Some (BusError e),
        {| dev := s1;
           log := log w ++ [(TxWriteByte (address l3g) regCtrl4 0, Some e)] |})) /\
  (forall i e s1 s2 s3,
     selected_index hz = Some i ->
     WriteByteToReg (bus l3g) (dev w) (address l3g) regCtrl4 0 = (None, s1) ->
     WriteByteToReg (bus l3g) s1 (address l3g) regLowOdr (col1 (row i))
       = (None, s2) ->
     WriteByteToReg (bus l3g) s2 (address l3g) regCtrl1 (col2 (row i))
       = (Some e, s3) ->
     SetFrequency l3g hz w =
       (Some (BusError e),
        {| dev := s3;
           log := log w ++
             [(TxWriteByte (address l3g) regCtrl4 0, None);
              (TxWriteByte (address l3g) regLowOdr (col1 (row i)), None);
              (TxWriteByte (address l3g) regCtrl1 (col2 (row i)), Some e)] |})).
Proof.
  split.
  - intros e s1 H1.
    destruct (SetFrequency_loop_from_start l3g hz) as [i [Hsel _]].
    rewrite (SetFrequency_run l3g hz i w Hsel). unfold three_writes.
    rewrite H1. reflexivity.
  - intros i e s1 s2 s3 Hsel H1 H2 H3. apply selected_index_iff in Hsel.
    rewrite (SetFrequency_run l3g hz i w Hsel). unfold three_writes.
    rewrite H1, H2, H3. reflexivity.
Qed.

Lemma SetFrequency_first_or_third_write_failure_witness :
  SetFrequency (NewL3GD Sim.flaky DefaultAddress) 100 (Sim.start (2%nat, Sim.blank)) =
    (Some (BusError Sim.ErrRemoteIO),
     {| dev := (0%nat, Sim.store (Sim.store Sim.blank 0x6b 0x23 0) 0x6b 0x39 0);
        log := [(TxWriteByte 0x6b regCtrl4 0, None);
                (TxWriteByte 0x6b regLowOdr 0, None);
                (TxWriteByte 0x6b regCtrl1 0x0f, Some Sim.ErrRemoteIO)] |}).
Proof.
  apply (proj2 (SetFrequency_first_or_third_write_failure
                  (NewL3GD Sim.flaky DefaultAddress) 100
                  (Sim.start (2%nat, Sim.blank)))
               3%nat Sim.ErrRemoteIO
               (1%nat, Sim.store Sim.blank 0x6b 0x23 0)
               (0%nat, Sim.store (Sim.store Sim.blank 0x6b 0x23 0) 0x6b 0x39 0)
               (0%nat, Sim.store (Sim.store Sim.blank 0x6b 0x23 0) 0x6b 0x39 0));
    reflexivity.
Defined.

(** If the read of CTRL1 fails, [Sleep] and [Wake] return the bus error and
    issue no write: the byte that came with the error is never written
    back. *)
Theorem Sleep_Wake_read_failure {St Err} (l3g : L3GD St Err) (w : World St Err)
        (v : Z) (e : Err) (s1 : St) :
  ReadByteFromReg (bus l3g) (dev w) (address l3g) regCtrl1 = ((v, Some e), s1) ->
  let failed :=
    (Some (BusError e),
     {| dev := s1;
        log := log w ++ [(TxReadByte (address l3g) regCtrl1, Some e)] |}) in
  Sleep l3g w = failed /\ Wake l3g w = failed.
Proof.
  intros Hread failed. rewrite Sleep_run, Wake_run. unfold update_ctrl1.
  rewrite Hread. split; reflexivity.
Qed.

Lemma Sleep_Wake_read_failure_witness :
  fst (Sleep (NewL3GD Sim.flaky DefaultAddress) (Sim.start (0%nat, Sim.blank)))
  = Some (BusError Sim.ErrRemoteIO).
Proof.
  pose proof (Sleep_Wake_read_failure
                (NewL3GD Sim.flaky DefaultAddress) (Sim.start (0%nat, Sim.blank))
                0 Sim.ErrRemoteIO (0%nat, Sim.blank) eq_refl) as [Hsleep _].
  rewrite Hsleep. reflexivity.
Defined.

(** ** What the methods never do *)



(** ** Sequences of methods on a bus where CTRL1 is a register *)

Lemma Sim_ideal_ctrl1_register (a : Z) :
  ctrl1_register Sim.ideal a (fun s v => s a regCtrl1 = v).
Proof.
  split.
  - intros s v Hv. exists s. cbn. rewrite Hv. split; reflexivity.
  - intros s v. eexists. split; [reflexivity|].
    unfold Sim.store. rewrite !Z.eqb_refl. reflexivity.
  - intros s r v _. eexists. reflexivity.
Qed.

Section Register.
Context {St Err : Type}.
Variable l3g : L3GD St Err.
Variable holds : St -> Z -> Prop.
Hypothesis Hreg : ctrl1_register (bus l3g) (address l3g) holds.

Lemma update_ctrl1_holds (f : Z -> Z) (w : World St Err) (V : Z) :
  holds (dev w) V ->
  fst (update_ctrl1 l3g f w) = None /\
  holds (dev (snd (update_ctrl1 l3g f w))) (f V).
Proof.
  intros HV. unfold update_ctrl1.
  destruct (ctrl1_read _ _ _ Hreg (dev w) V HV) as [s1 [-> _]].
  destruct (ctrl1_write _ _ _ Hreg s1 (f V)) as [s2 [-> H2]].
  split; [reflexivity | exact H2].
Qed.

Lemma Sleep_holds (w : World St Err) (V : Z) :
  holds (dev w) V ->
  fst (Sleep l3g w) = None /\
  holds (dev (snd (Sleep l3g w))) (and_not V 0x08).
Proof.
  intros HV. rewrite Sleep_run.
  apply (update_ctrl1_holds (fun bw => and_not bw (Z.shiftl 1 3)) w V HV).
Qed.

Lemma Wake_holds (w : World St Err) (V : Z) :
  holds (dev w) V ->
  fst (Wake l3g w) = None /\
  holds (dev (snd (Wake l3g w))) (Z.lor V 0xf0).
Proof.
  intros HV. rewrite Wake_run.
  apply (update_ctrl1_holds (fun bw => Z.lor bw 0xf0) w V HV).
Qed.

Lemma SetFrequency_holds (hz : Z) (i : nat) (w : World St Err) :
  selected_index hz = Some i ->
  fst (SetFrequency l3g hz w) = None /\
  holds (dev (snd (SetFrequency l3g hz w))) (col2 (row i)).
Proof.
  intros Hsel. apply selected_index_iff in Hsel.
  rewrite (SetFrequency_run l3g hz i w Hsel). unfold three_writes.
  destruct (other_write _ _ _ Hreg (dev w) regCtrl4 0) as [s1 ->];
    [discriminate|].
  destruct (other_write _ _ _ Hreg s1 regLowOdr (col1 (row i))) as [s2 ->];
    [discriminate|].
  destruct (ctrl1_write _ _ _ Hreg s2 (col2 (row i))) as [s3 [-> H3]].
  split; [reflexivity | exact H3].
Qed.

End Register.

Lemma and_not_idempotent (V : Z) : and_not (and_not V 0x08) 0x08 = and_not V 0x08.
Proof.
  apply Z.bits_inj'. intros i _. rewrite !and_not_bit3.
  destruct (i =? 3); reflexivity.
Qed.

Lemma lor_f0_idempotent (V : Z) : Z.lor (Z.lor V 0xf0) 0xf0 = Z.lor V 0xf0.
Proof. rewrite <- Z.lor_assoc, Z.lor_diag. reflexivity. Qed.

Lemma and_not_lor_f0 (V : Z) :
  and_not (Z.lor V 0xf0) 0x08 = Z.lor (and_not V 0x08) 0xf0.
Proof.
  apply Z.bits_inj'. intros i _.
  rewrite and_not_bit3, !lor_f0_bits, and_not_bit3.
  destruct (i =? 3) eqn:E; [|reflexivity].
  apply Z.eqb_eq in E. subst. reflexivity.
Qed.

Lemma table_ctrl1_lor_f0 (i : nat) :
  (i < 7)%nat -> Z.lor (col2 (row i)) 0xf0 = 0xff.
Proof.
  intros Hi. do 7 (destruct i as [|i]; [reflexivity|]). lia.
Qed.

Lemma table_ctrl1_bit3 (i : nat) :
  (i < 7)%nat -> Z.testbit (col2 (row i)) 3 = true.
Proof.
  intros Hi. do 7 (destruct i as [|i]; [reflexivity|]). lia.
Qed.

(** [Sleep] twice is [Sleep] once, and [Wake] twice is [Wake] once: with
    CTRL1 holding [V], the second call succeeds and leaves CTRL1 as the first
    call left it. *)
Theorem Sleep_and_Wake_idempotent {St Err} (l3g : L3GD St Err)
        (holds : St -> Z -> Prop) (w : World St Err) (V : Z) :
  ctrl1_register (bus l3g) (address l3g) holds ->
  holds (dev w) V ->
  (let w1 := snd (Sleep l3g w) in
   let w2 := snd (Sleep l3g w1) in
   fst (Sleep l3g w) = None /\ fst (Sleep l3g w1) = None /\
   holds (dev w1) (and_not V 0x08) /\ holds (dev w2) (and_not V 0x08)) /\
  (let w1 := snd (Wake l3g w) in
   let w2 := snd (Wake l3g w1) in
   fst (Wake l3g w) = None /\ fst (Wake l3g w1) = None /\
   holds (dev w1) (Z.lor V 0xf0) /\ holds (dev w2) (Z.lor V 0xf0)).
Proof.
  intros Hreg HV. split; cbv zeta.
  - destruct (Sleep_holds l3g holds Hreg w V HV) as [E1 H1].
    destruct (Sleep_holds l3g holds Hreg _ _ H1) as [E2 H2].
    rewrite and_not_idempotent in H2. auto.
  - destruct (Wake_holds l3g holds Hreg w V HV) as [E1 H1].
    destruct (Wake_holds l3g holds Hreg _ _ H1) as [E2 H2].
    rewrite lor_f0_idempotent in H2. auto.
Qed.

Lemma Sleep_and_Wake_idempotent_witness :
  dev (snd (Sleep (NewL3GD Sim.ideal DefaultAddress)
                  (snd (Sleep (NewL3GD Sim.ideal DefaultAddress)
                              (Sim.start (Sim.load Sim.blank 0x6b 0x20 [0x6f]))))))
      0x6b regCtrl1
  = and_not 0x6f 0x08.
Proof.
  pose proof (Sleep_and_Wake_idempotent
                (NewL3GD Sim.ideal DefaultAddress)
                (fun s v => s 0x6b regCtrl1 = v)
                (Sim.start (Sim.load Sim.blank 0x6b 0x20 [0x6f])) 0x6f
                (Sim_ideal_ctrl1_register 0x6b) eq_refl)
    as [[_ [_ [_ H]]] _].
  exact H.
Defined.

(** [Sleep] and [Wake] commute: in either order both succeed and CTRL1 ends
    with [(V &^ 0x08) | 0xF0].  Bit 3 of that byte is clear, so [Wake] does
    not set again the bit that [Sleep] clears. *)
Theorem Sleep_Wake_commute {St Err} (l3g : L3GD St Err)
        (holds : St -> Z -> Prop) (w : World St Err) (V : Z) :
  ctrl1_register (bus l3g) (address l3g) holds ->
  holds (dev w) V ->
  let final := Z.lor (and_not V 0x08) 0xf0 in
  (fst (Sleep l3g w) = None /\ fst (Wake l3g (snd (Sleep l3g w))) = None /\
   holds (dev (snd (Wake l3g (snd (Sleep l3g w))))) final) /\
  (fst (Wake l3g w) = None /\ fst (Sleep l3g (snd (Wake l3g w))) = None /\
   holds (dev (snd (Sleep l3g (snd (Wake l3g w))))) final) /\
  Z.testbit final 3 = false.
Proof.
  intros Hreg HV final. split; [|split].
  - destruct (Sleep_holds l3g holds Hreg w V HV) as [E1 H1].
    destruct (Wake_holds l3g holds Hreg _ _ H1) as [E2 H2]. auto.
  - destruct (Wake_holds l3g holds Hreg w V HV) as [E1 H1].
    destruct (Sleep_holds l3g holds Hreg _ _ H1) as [E2 H2].
    rewrite and_not_lor_f0 in H2. auto.
  - unfold final. rewrite lor_f0_bits, and_not_bit3. reflexivity.
Qed.

Lemma Sleep_Wake_commute_witness :
  dev (snd (Sleep (NewL3GD Sim.ideal DefaultAddress)
                  (snd (Wake (NewL3GD Sim.ideal DefaultAddress)
                             (Sim.start (Sim.load Sim.blank 0x6b 0x20 [0x0f]))))))
      0x6b regCtrl1
  = Z.lor (and_not 0x0f 0x08) 0xf0.
Proof.
  pose proof (Sleep_Wake_commute
                (NewL3GD Sim.ideal DefaultAddress)
                (fun s v => s 0x6b regCtrl1 = v)
                (Sim.start (Sim.load Sim.blank 0x6b 0x20 [0x0f])) 0x0f
                (Sim_ideal_ctrl1_register 0x6b) eq_refl)
    as [_ [[_ [_ H]] _]].
  exact H.
Defined.

(** [SetFrequency] overwrites CTRL1 whatever it held: called after [Sleep],
    it succeeds and leaves the selected row's ctrl1Bits there, with bit 3 set
    again. *)
Theorem SetFrequency_after_Sleep {St Err} (l3g : L3GD St Err)
        (holds : St -> Z -> Prop) (w : World St Err) (V hz : Z) (i : nat) :
  ctrl1_register (bus l3g) (address l3g) holds ->
  holds (dev w) V ->
  selected_index hz = Some i ->
  let w1 := snd (Sleep l3g w) in
  let w2 := snd (SetFrequency l3g hz w1) in
  fst (Sleep l3g w) = None /\ fst (SetFrequency l3g hz w1) = None /\
  holds (dev w2) (col2 (row i)) /\ Z.testbit (col2 (row i)) 3 = true.
Proof.
  intros Hreg HV Hsel w1 w2.
  destruct (Sleep_holds l3g holds Hreg w V HV) as [E1 _].
  destruct (SetFrequency_holds l3g holds Hreg hz i w1 Hsel) as [E2 H2].
  repeat split; try assumption.
  apply table_ctrl1_bit3. apply selected_index_iff, selects_bound in Hsel. exact Hsel.
Qed.

Lemma SetFrequency_after_Sleep_witness :
  dev (snd (SetFrequency (NewL3GD Sim.ideal DefaultAddress) 200
              (snd (Sleep (NewL3GD Sim.ideal DefaultAddress)
                          (Sim.start (Sim.load Sim.blank 0x6b 0x20 [0x6f]))))))
      0x6b regCtrl1
  = col2 (row 4).
Proof.
  pose proof (SetFrequency_after_Sleep
                (NewL3GD Sim.ideal DefaultAddress)
                (fun s v => s 0x6b regCtrl1 = v)
                (Sim.start (Sim.load Sim.blank 0x6b 0x20 [0x6f])) 0x6f 200 4
                (Sim_ideal_ctrl1_register 0x6b) eq_refl eq_refl)
    as [_ [_ [H _]]].
  exact H.
Defined.

(** [Wake] after [SetFrequency] discards the rate: for every [hz], CTRL1
    ends with 0xFF; and [Sleep] then [Wake] after [SetFrequency] ends with
    0xF7, bit 3 clear, for every [hz]. *)
Theorem Wake_after_SetFrequency {St Err} (l3g : L3GD St Err)
        (holds : St -> Z -> Prop) (w : World St Err) (hz : Z) :
  ctrl1_register (bus l3g) (address l3g) holds ->
  let w1 := snd (SetFrequency l3g hz w) in
  fst (SetFrequency l3g hz w) = None /\
  (fst (Wake l3g w1) = None /\ holds (dev (snd (Wake l3g w1))) 0xff) /\
  (let w2 := snd (Sleep l3g w1) in
   fst (Sleep l3g w1) = None /\ fst (Wake l3g w2) = None /\
   holds (dev (snd (Wake l3g w2))) 0xf7).
Proof.
  intros Hreg w1.
  destruct (selected_index hz) as [i|] eqn:Hsel.
  2: { destruct (selected_index_from_selects hz (length bitsLowodrDrForFrequency) 0)
         as [k [Hk _]]; rewrite ?table_length; try lia.
       unfold selected_index in Hsel. congruence. }
  destruct (SetFrequency_holds l3g holds Hreg hz i w Hsel) as [E1 H1].
  apply selected_index_iff, selects_bound in Hsel.
  split; [exact E1|]. split.
  - destruct (Wake_holds l3g holds Hreg _ _ H1) as [E2 H2].
    rewrite (table_ctrl1_lor_f0 i Hsel) in H2. auto.
  - cbv zeta. destruct (Sleep_holds l3g holds Hreg _ _ H1) as [E2 H2].
    destruct (Wake_holds l3g holds Hreg _ _ H2) as [E3 H3].
    rewrite <- and_not_lor_f0, (table_ctrl1_lor_f0 i Hsel) in H3.
    split; [exact E2|]. split; [exact E3 | exact H3].
Qed.

Lemma Wake_after_SetFrequency_witness :
  dev (snd (Wake (NewL3GD Sim.ideal DefaultAddress)
                 (snd (SetFrequency (NewL3GD Sim.ideal DefaultAddress) 50
                                    (Sim.start Sim.blank)))))
      0x6b regCtrl1
  = 0xff.
Proof.
  pose proof (Wake_after_SetFrequency
                (NewL3GD Sim.ideal DefaultAddress)
                (fun s v => s 0x6b regCtrl1 = v)
                (Sim.start Sim.blank) 50
                (Sim_ideal_ctrl1_register 0x6b))
    as [_ [[_ H] _]].
  exact H.
Defined.
